(** * SmartLLM Router: the routing core, embedded and verified

    The development follows the Python package [smartllm_router]:
    - [analyzer.py]  (QueryAnalyzer)   -> Module [Analyzer]
    - [selector.py]  (Model, ModelSelector) -> Module [Selector]
    - [tracker.py]   (CostTracker)     -> Module [Tracker]
    - [router.py]    (SmartRouter)     -> Module [Router]

    Conventions of the embedding.
    - Python [float] values (prices, scores, costs, clock readings) are
      exact rationals [Q]; numeric statements use [==], [<=] and [<] on [Q].
    - Python [int] values are [Z]; lengths are [nat] injected where needed.
    - A raised exception is a value [Raise e] of the [result] monad.
    - [dict]s used as maps are [gmap]s; the pattern table, whose iteration
      order matters, is an association list.
    - The tokenizer, the string hash, the clock and the provider calls are
      external: they are Section variables or fields of an environment. *)

From Stdlib Require Import ZArith QArith Qround Qminmax Lia Lqa.
From Stdlib Require Import String Ascii List Permutation Sorted.
From stdpp Require Import gmap strings list pretty.

Import ListNotations.
Local Open Scope string_scope.
Local Open Scope list_scope.

(** ** Exceptions as values *)

Inductive exn : Type :=
  | ValueError (msg : string)
  | KeyError (key : string)
  | ProviderError (msg : string).

Inductive result (A : Type) : Type :=
  | Ok (a : A)
  | Raise (e : exn).

Arguments Ok {A} a.
Arguments Raise {A} e.

Definition bind {A B : Type} (r : result A) (k : A -> result B) : result B :=
  match r with
  | Ok a => k a
  | Raise e => Raise e
  end.

Notation "'let*' x ':=' r 'in' k" := (bind r (fun x => k))
  (at level 10, x name, r at level 100, k at level 200).

(** ** Query analysis ([analyzer.py]) *)

Record QueryComplexity : Type := mkQueryComplexity {
  token_count : Z;
  vocabulary_complexity : Q;
  task_type : string;
  estimated_output_tokens : Z;
  required_capabilities : list string;
  complexity_score : Q
}.

Module Analyzer.

(** *** Text primitives

    Strings are sequences of 8-bit characters; [str.lower] is modelled on
    the ASCII letters, the only ones the pattern tables mention. *)

Definition lower_ascii (c : ascii) : ascii :=
  let n := nat_of_ascii c in
  if ((65 <=? n) && (n <=? 90))%nat then ascii_of_nat (n + 32) else c.

Fixpoint lower (s : string) : string :=
  match s with
  | EmptyString => EmptyString
  | String c s' => String (lower_ascii c) (lower s')
  end.

(** [needle in hay]: some suffix of [hay] starts with [needle]. *)
Fixpoint contains (needle hay : string) : bool :=
  match hay with
  | EmptyString => String.prefix needle EmptyString
  | String _ hay' => String.prefix needle hay || contains needle hay'
  end.

(** Every regular expression of [task_patterns] is an alternation
    [a1|a2|...|an] of literal strings (the one escape, [c\+\+], denotes the
    literal [c++]).  Such a pattern is kept as the list of its
    alternatives, and [re.search] succeeds exactly when one of them occurs
    in the subject. *)
Definition pattern : Type := list string.

Definition re_search (p : pattern) (subject : string) : bool :=
  existsb (fun alt => contains alt subject) p.

Definition is_digit (c : ascii) : bool :=
  let n := nat_of_ascii c in ((48 <=? n) && (n <=? 57))%nat.

Definition is_operator (c : ascii) : bool :=
  (c =? "+")%char || (c =? "-")%char || (c =? "*")%char || (c =? "/")%char.

(** [re.search(r'\d+[\+\-\*/]\d+', s)]: the expression matches somewhere
    exactly when a digit, an operator and a digit stand next to each
    other. *)
Fixpoint numeric_operator (s : string) : bool :=
  match s with
  | String a ((String b (String c _)) as s') =>
      (is_digit a && is_operator b && is_digit c) || numeric_operator s'
  | _ => false
  end.

(** *** Static configuration *)

Local Open Scope Q_scope.

(** [self.task_patterns]: a dict iterated in insertion order. *)
Definition task_patterns : list (string * list pattern) :=
  [ ("simple_qa",
      [ ["what is"; "what are"; "who is"; "who are"; "when is"; "when was";
         "where is"];
        ["define"; "definition of"; "meaning of"];
        ["yes or no"; "true or false"] ]);
    ("summarization",
      [ ["summarize"; "summary of"; "tldr"; "key points"];
        ["main idea"; "brief overview"; "condensed version"] ]);
    ("code",
      [ ["```"; "code"; "function"; "implement"; "algorithm"; "debug"; "fix"];
        ["python"; "javascript"; "java"; "c++"; "sql"; "programming"] ]);
    ("analysis",
      [ ["analyze"; "analysis"; "compare"; "contrast"; "evaluate"];
        ["pros and cons"; "advantages"; "disadvantages"; "implications"] ]);
    ("creative",
      [ ["write a story"; "poem"; "creative"; "imagine"; "fictional"];
        ["brainstorm"; "ideas for"; "suggestions for"] ]);
    ("math",
      [ ["calculate"; "solve"; "equation"; "formula"; "mathematical"];
        ["derivative"; "integral"; "probability"; "statistics"] ]);
    ("reasoning",
      [ ["explain why"; "how does"; "logical"; "reasoning"; "think through"];
        ["step by step"; "walkthrough"; "systematic"] ]) ].

Definition multipliers : gmap string Q :=
  <["simple_qa" := 0.5]> (<["summarization" := 0.3]> (<["code" := 2.5]>
  (<["analysis" := 2.0]> (<["creative" := 3.0]> (<["math" := 1.5]>
  (<["reasoning" := 2.0]> (<["general" := 1.0]> ∅))))))).

Definition task_scores : gmap string Q :=
  <["simple_qa" := 0.1]> (<["summarization" := 0.3]> (<["code" := 0.8]>
  (<["analysis" := 0.7]> (<["creative" := 0.6]> (<["math" := 0.8]>
  (<["reasoning" := 0.9]> (<["general" := 0.5]> ∅))))))).

(** [d.get(key, dflt)] *)
Definition get (d : gmap string Q) (key : string) (dflt : Q) : Q :=
  default dflt (d !! key).

(** [int(x)] on a float: truncation towards zero. *)
Definition int (x : Q) : Z :=
  if Qle_bool 0 x then Qfloor x else Qceiling x.

(** *** [_detect_task_type] *)

(** The inner loop: [for pattern in patterns: if re.search(...)]. *)
Fixpoint any_pattern (patterns : list pattern) (query_lower : string) : bool :=
  match patterns with
  | [] => false
  | p :: ps => if re_search p query_lower then true else any_pattern ps query_lower
  end.

(** The outer loop over the table, leaving at the first hit. *)
Fixpoint detect_in (table : list (string * list pattern)) (query_lower : string)
  : string :=
  match table with
  | [] => "general"
  | (task, patterns) :: rest =>
      if any_pattern patterns query_lower then task
      else detect_in rest query_lower
  end.

Definition _detect_task_type (query : string) : string :=
  detect_in task_patterns (lower query).

(** *** [_estimate_output_tokens] *)

Definition _estimate_output_tokens (task : string) (input_tokens : Z) : Z :=
  int (inject_Z input_tokens * get multipliers task 1.0).

(** *** [_detect_required_capabilities] *)

Definition _detect_required_capabilities (query task : string) : list string :=
  (if String.eqb task "code" then ["code_generation"] else []) ++
  (if String.eqb task "math" || numeric_operator query
   then ["mathematical_reasoning"] else []) ++
  (if String.eqb task "analysis" || String.eqb task "reasoning"
   then ["complex_reasoning"] else []) ++
  (if (1000 <? String.length query)%nat then ["long_context"] else []) ++
  (if re_search ["json"; "xml"; "yaml"; "csv"] (lower query)
   then ["structured_output"] else []).

(** *** [_calculate_complexity_score] *)

Definition _calculate_complexity_score
  (token_count : Z) (vocab_complexity : Q) (task : string)
  (capabilities : list string) : Q :=
  let token_score := Qmin (inject_Z token_count / 500) 1.0 * 0.2 in
  let vocab_score := vocab_complexity * 0.2 in
  let task_score := get task_scores task 0.5 * 0.4 in
  let capability_score :=
    Qmin (inject_Z (Z.of_nat (length capabilities)) * 0.1) 0.2 in
  token_score + vocab_score + task_score + capability_score.

(** *** [analyze], for a given tokenizer *)

Section WithEncoder.

(** [self.encoder.encode]: the tiktoken encoder, text to token ids. *)
Variable encode : string -> list Z.

Definition analyze (query : string) : QueryComplexity :=
  let tokens := encode query in
  let token_count := length tokens in
  let unique_tokens := size (list_to_set tokens : gset Z) in
  let vocabulary_complexity :=
    if (0 <? token_count)%nat
    then inject_Z (Z.of_nat unique_tokens) / inject_Z (Z.of_nat token_count)
    else 0 in
  let task := _detect_task_type query in
  let estimated_output := _estimate_output_tokens task (Z.of_nat token_count) in
  let caps := _detect_required_capabilities query task in
  let score :=
    _calculate_complexity_score (Z.of_nat token_count) vocabulary_complexity
                                task caps in
  mkQueryComplexity (Z.of_nat token_count) vocabulary_complexity task
                    estimated_output caps score.

End WithEncoder.

End Analyzer.

(** ** Routing rules ([rules.py]) *)

(** The condition is a Python callable on the complexity descriptor; it is
    taken to return a truth value. *)
Record RoutingRule : Type := mkRoutingRule {
  rule_name : string;
  condition : QueryComplexity -> bool;
  model : string;
  priority : Z
}.

(** ** The catalog and model selection ([selector.py]) *)

(** [a < b] on floats *)
Definition Qlt_bool (a b : Q) : bool := negb (Qle_bool b a).

Module Selector.

Local Open Scope Q_scope.

(** *** The model catalog *)

Inductive ModelProvider : Type := OPENAI | ANTHROPIC | GOOGLE | MISTRAL.

Definition provider_value (p : ModelProvider) : string :=
  match p with
  | OPENAI => "openai"
  | ANTHROPIC => "anthropic"
  | GOOGLE => "google"
  | MISTRAL => "mistral"
  end.

Record Model : Type := mkModel {
  name : string;
  provider : ModelProvider;
  cost_per_1k_input : Q;
  cost_per_1k_output : Q;
  max_tokens : Z;
  speed_score : Q;       (* 1-10, higher is faster *)
  quality_score : Q;     (* 1-10, higher is better *)
  capabilities : list string
}.

Definition gpt_35_turbo : Model :=
  mkModel "gpt-3.5-turbo" OPENAI 0.0005 0.0015 4096 9 7
          ["general"; "code_generation"; "summarization"].

Definition gpt_4o_mini : Model :=
  mkModel "gpt-4o-mini" OPENAI 0.00015 0.0006 128000 9 9
          ["general"; "code_generation"; "summarization"; "reasoning"].

Definition gpt_4 : Model :=
  mkModel "gpt-4" OPENAI 0.03 0.06 8192 6 10 ["all"].

Definition claude_3_haiku : Model :=
  mkModel "claude-3-haiku" ANTHROPIC 0.00025 0.00125 200000 10 7.5
          ["general"; "summarization"; "long_context"].

Definition claude_3_opus : Model :=
  mkModel "claude-3-opus" ANTHROPIC 0.015 0.075 200000 5 10 ["all"].

Definition mistral_7b : Model :=
  mkModel "mistral-7b" MISTRAL 0.0002 0.0002 8192 8 6
          ["general"; "code_generation"].

Definition gemini_pro : Model :=
  mkModel "gemini-pro" GOOGLE 0.00025 0.0005 32000 8 8
          ["general"; "code_generation"; "mathematical_reasoning"].

(** [ModelSelector._initialize_models]: the dict, keyed by model name. *)
Definition _initialize_models : gmap string Model :=
  <["gpt-3.5-turbo" := gpt_35_turbo]>
  (<["gpt-4o-mini" := gpt_4o_mini]>
  (<["gpt-4" := gpt_4]>
  (<["claude-3-haiku" := claude_3_haiku]>
  (<["claude-3-opus" := claude_3_opus]>
  (<["mistral-7b" := mistral_7b]>
  (<["gemini-pro" := gemini_pro]> ∅)))))).

(** [self.models[key]]: a KeyError when the key is absent. *)
Definition getitem (models : gmap string Model) (key : string) : result Model :=
  match models !! key with
  | Some m => Ok m
  | None => Raise (KeyError key)
  end.

(** [sorted(rules, key=lambda r: r.priority, reverse=True)]: a stable
    sort, so rules of equal priority keep their relative order. *)
Fixpoint insert_rule (r : RoutingRule) (l : list RoutingRule) : list RoutingRule :=
  match l with
  | [] => [r]
  | x :: l' =>
      if (priority r <? priority x)%Z then x :: insert_rule r l' else r :: l
  end.

Definition sorted (rules : list RoutingRule) : list RoutingRule :=
  foldr insert_rule [] rules.

Section WithModels.

(** [self.models] *)
Variable models : gmap string Model.

(** The loop over the sorted rules: the first rule whose condition holds
    and whose model is a key of [self.models] decides. *)
Fixpoint apply_rules (rules : list RoutingRule) (complexity : QueryComplexity)
  : option Model :=
  match rules with
  | [] => None
  | rule :: rest =>
      if condition rule complexity then
        match models !! model rule with
        | Some m => Some m
        | None => apply_rules rest complexity
        end
      else apply_rules rest complexity
  end.

Definition _select_cost_optimized (complexity : QueryComplexity) : result Model :=
  if Qlt_bool (complexity_score complexity) 0.3 then getitem models "mistral-7b"
  else if Qlt_bool (complexity_score complexity) 0.5 then getitem models "claude-3-haiku"
  else if Qlt_bool (complexity_score complexity) 0.7 then getitem models "gpt-3.5-turbo"
  else if Qlt_bool (complexity_score complexity) 0.85 then getitem models "gemini-pro"
  else getitem models "gpt-4".

Definition _select_quality_first (complexity : QueryComplexity) : result Model :=
  if Qlt_bool (complexity_score complexity) 0.2 then getitem models "gpt-3.5-turbo"
  else if Qlt_bool (complexity_score complexity) 0.6 then getitem models "gemini-pro"
  else getitem models "gpt-4".

Definition _select_balanced (complexity : QueryComplexity) : result Model :=
  let caps := required_capabilities complexity in
  let score := complexity_score complexity in
  if bool_decide ("code_generation" ∈ caps) then
    if Qlt_bool 0.7 score then getitem models "gpt-4"
    else getitem models "gpt-3.5-turbo"
  else if bool_decide ("long_context" ∈ caps) then
    getitem models "claude-3-haiku"
  else if bool_decide ("mathematical_reasoning" ∈ caps) then
    if Qlt_bool 0.6 score then getitem models "gpt-4"
    else getitem models "gemini-pro"
  else if Qlt_bool score 0.4 then getitem models "claude-3-haiku"
  else if Qlt_bool score 0.7 then getitem models "gpt-3.5-turbo"
  else getitem models "gpt-4".

(** The strategy dispatch; every name but the first two is [balanced]. *)
Definition select_by_strategy (complexity : QueryComplexity) (strategy : string)
  : result Model :=
  if String.eqb strategy "cost_optimized" then _select_cost_optimized complexity
  else if String.eqb strategy "quality_first" then _select_quality_first complexity
  else _select_balanced complexity.

Definition select_model (complexity : QueryComplexity) (strategy : string)
  (custom_rules : list RoutingRule) : result Model :=
  match apply_rules (sorted custom_rules) complexity with
  | Some m => Ok m
  | None => select_by_strategy complexity strategy
  end.

End WithModels.

End Selector.

(** The descriptors of [tests/test_router.py]. *)
Definition simple_complexity : QueryComplexity :=
  mkQueryComplexity 10 0.3 "simple_qa" 20 [] 0.2.

Definition complex_complexity : QueryComplexity :=
  mkQueryComplexity 100 0.8 "reasoning" 200 ["complex_reasoning"] 0.9.

Definition code_complexity : QueryComplexity :=
  mkQueryComplexity 50 0.6 "code" 100 ["code_generation"] 0.8.

Definition code_to_gpt4 : RoutingRule :=
  mkRoutingRule "code_to_gpt4" (fun q => String.eqb (task_type q) "code")
                "gpt-4" 100.

(** ** Python built-ins on numbers *)

Module Py.

(** [max(a, b)]: the second argument only when it is strictly larger. *)
Definition max (a b : Q) : Q := if Qlt_bool a b then b else a.

(** Rounding to the nearest integer, ties to the even one. *)
Definition round_half_even (x : Q) : Z :=
  let f := Qfloor x in
  match (x - inject_Z f ?= 1 # 2)%Q with
  | Lt => f
  | Gt => (f + 1)%Z
  | Eq => if Z.even f then f else (f + 1)%Z
  end.

(** [round(x, ndigits)] *)
Definition round (x : Q) (ndigits : nat) : Q :=
  let scale := inject_Z (10 ^ Z.of_nat ndigits) in
  (inject_Z (round_half_even (x * scale)) / scale)%Q.

(** [sum(xs)] *)
Definition sum (xs : list Q) : Q := foldl Qplus 0%Q xs.

End Py.

(** ** Cost tracking ([tracker.py]) *)

Module Tracker.

Local Open Scope Q_scope.

(** One entry of [self.requests].  A [datetime] is a number of seconds on
    the local time line; its [date()] is the day number. *)
Record request_data : Type := mkRequest {
  timestamp : Q;
  model : string;
  provider : string;
  input_tokens : Z;
  output_tokens : Z;
  cost : Q;
  savings : Q;
  latency : Q
}.

Record CostTracker : Type := mkCostTracker {
  requests : list request_data;
  daily_costs : gmap Z Q;
  model_usage : gmap string Z;
  total_savings : Q
}.

Definition __init__ : CostTracker := mkCostTracker [] ∅ ∅ 0.

Definition date (t : Q) : Z := Qfloor (t / 86400).

(** [timedelta(days=d)] in seconds *)
Definition timedelta (days : Z) : Q := inject_Z days * 86400.

(** [track_request]; [now] is the reading of [datetime.now()] used when no
    timestamp is passed. *)
Definition track_request (self : CostTracker) (now : Q)
  (model provider : string) (input_tokens output_tokens : Z)
  (cost savings latency : Q) (timestamp : option Q) : CostTracker :=
  let timestamp := default now timestamp in
  let request_data :=
    mkRequest timestamp model provider input_tokens output_tokens
              cost savings latency in
  mkCostTracker
    (requests self ++ [request_data])
    (<[date timestamp := default 0 (daily_costs self !! date timestamp) + cost]>
       (daily_costs self))
    (<[model := (default 0 (model_usage self !! model) + 1)%Z]> (model_usage self))
    (total_savings self + savings).

(** The dict returned by [get_analytics]; the first branch has no
    [cost_reduction_percentage] key. *)
Record Analytics : Type := mkAnalytics {
  a_total_requests : Z;
  a_total_cost : Q;
  a_total_savings : Q;
  a_cost_reduction_percentage : option Q;
  a_average_latency : Q;
  a_model_distribution : gmap string Z;
  a_daily_costs : gmap Z Q
}.

Definition recent (self : CostTracker) (cutoff : Q) : list request_data :=
  List.filter (fun r => Qlt_bool cutoff (timestamp r)) (requests self).

(** [statistics.mean] *)
Definition mean (xs : list Q) : Q := Py.sum xs / inject_Z (Z.of_nat (length xs)).

Definition count_models (rs : list request_data) : gmap string Z :=
  foldl (fun dist r => <[model r := (default 0 (dist !! model r) + 1)%Z]> dist)
        ∅ rs.

Definition get_analytics (self : CostTracker) (now : Q) (period_days : Z)
  : Analytics :=
  let cutoff := now - timedelta period_days in
  let recent_requests := recent self cutoff in
  match recent_requests with
  | [] => mkAnalytics 0 0 0 None 0 ∅ ∅
  | _ =>
      let total_cost := Py.sum (map cost recent_requests) in
      let total_savings := Py.sum (map savings recent_requests) in
      let avg_latency := mean (map latency recent_requests) in
      mkAnalytics
        (Z.of_nat (length recent_requests))
        (Py.round total_cost 4)
        (Py.round total_savings 4)
        (Some (if Qlt_bool 0 (total_cost + total_savings)
               then Py.round (total_savings / (total_cost + total_savings) * 100) 2
               else 0))
        (Py.round avg_latency 3)
        (count_models recent_requests)
        ((fun c => Py.round c 4) <$>
           filter (fun dc => (date cutoff < dc.1)%Z) (daily_costs self))
  end.

(** [get_daily_cost] *)
Definition get_daily_cost (self : CostTracker) (now : Q) : Q :=
  Py.sum (map cost
         (List.filter (fun r => (date (timestamp r) =? date now)%Z)
                      (requests self))).

End Tracker.

(** ** The router ([router.py]) *)

Module Router.

Local Open Scope Q_scope.

Record RouterResponse : Type := mkRouterResponse {
  content : string;
  model : string;
  provider : string;
  input_tokens : Z;
  output_tokens : Z;
  cost : Q;
  savings : Q;
  latency : Q;
  quality_score : option Q
}.

(** A value of [self.cache]. *)
Record CacheEntry : Type := mkCacheEntry {
  response : RouterResponse;
  timestamp : Q
}.

(** A chat message, [Dict[str, str]]. *)
Abbreviation Message := (gmap string string).

Record SmartRouter : Type := mkSmartRouter {
  strategy : string;
  daily_budget : option Q;
  cache_ttl : Z;
  enable_fallback : bool;
  models : gmap string Selector.Model;            (* self.selector.models *)
  tracker : Tracker.CostTracker;
  api_keys : gmap string (option string);
  custom_rules : list RoutingRule;
  cache : gmap string CacheEntry
}.

Definition __init__ (openai_key anthropic_key google_key mistral_key : option string)
  (strategy : string) (daily_budget : option Q) (cache_ttl : Z)
  (enable_fallback : bool) : SmartRouter :=
  mkSmartRouter strategy daily_budget cache_ttl enable_fallback
    Selector._initialize_models Tracker.__init__
    (<["openai" := openai_key]> (<["anthropic" := anthropic_key]>
     (<["google" := google_key]> (<["mistral" := mistral_key]> ∅))))
    [] ∅.

Definition set_custom_rules (self : SmartRouter) (rules : list RoutingRule)
  : SmartRouter :=
  mkSmartRouter (strategy self) (daily_budget self) (cache_ttl self)
    (enable_fallback self) (models self) (tracker self) (api_keys self)
    rules (cache self).

Definition set_tracker_cache (self : SmartRouter) (t : Tracker.CostTracker)
  (c : gmap string CacheEntry) : SmartRouter :=
  mkSmartRouter (strategy self) (daily_budget self) (cache_ttl self)
    (enable_fallback self) (models self) t (api_keys self)
    (custom_rules self) c.

Definition add_rule (self : SmartRouter) (rule : RoutingRule) : SmartRouter :=
  set_custom_rules self (custom_rules self ++ [rule]).

(** *** [_extract_query] *)

(** The loop body over an already reversed message list. *)
Fixpoint first_user (messages : list Message) : string :=
  match messages with
  | [] => EmptyString
  | message :: rest =>
      if bool_decide (message !! "role" = Some "user")
      then default EmptyString (message !! "content")
      else first_user rest
  end.

Definition _extract_query (messages : list Message) : string :=
  first_user (reverse messages).

(** *** [_calculate_cost] *)

Definition _calculate_cost (m : Selector.Model) (input_tokens output_tokens : Z) : Q :=
  let input_cost := inject_Z input_tokens / 1000 * Selector.cost_per_1k_input m in
  let output_cost := inject_Z output_tokens / 1000 * Selector.cost_per_1k_output m in
  input_cost + output_cost.

(** *** The outside world of one [create] call

    [remote api m msgs] is the network call made by the client library of
    provider [api] for model [m]; [remote_retry] is the same service at the
    later moment of the fallback call.  The clock fields are the successive
    readings of [time.time()] and [datetime.now()]. *)
Record World : Type := mkWorld {
  remote : Selector.ModelProvider -> Selector.Model -> list Message -> result string;
  remote_retry : Selector.ModelProvider -> Selector.Model -> list Message -> result string;
  t_lookup : Q;
  t_start : Q;
  t_end : Q;
  t_track : Q;
  t_store : Q
}.

(** Python truthiness of an optional key. *)
Definition truthy (k : option string) : bool :=
  match k with
  | Some s => negb (String.eqb s EmptyString)
  | None => false
  end.

Definition missing_key_message (api : Selector.ModelProvider) : string :=
  match api with
  | Selector.OPENAI => "OpenAI API key not provided"
  | Selector.ANTHROPIC => "Anthropic API key not provided"
  | Selector.GOOGLE => "Google API key not provided"
  | Selector.MISTRAL => "Mistral API key not provided"
  end.

(** [_call_openai_api], [_call_anthropic_api], [_call_google_api] and
    [_call_mistral_api]: the key check, then the network call [call]. *)
Definition _call_api (self : SmartRouter) (api : Selector.ModelProvider)
  (call : Selector.ModelProvider -> Selector.Model -> list Message -> result string)
  (m : Selector.Model) (messages : list Message) : result string :=
  match api_keys self !! Selector.provider_value api with
  | None => Raise (KeyError (Selector.provider_value api))
  | Some k =>
      if truthy k then call api m messages
      else Raise (ValueError (missing_key_message api))
  end.

(** [_call_model_api]: the provider of the model picks the client; any
    exception leads to the fallback call when fallback is enabled. *)
Definition _call_model_api (self : SmartRouter) (w : World) (m : Selector.Model)
  (messages : list Message) : result string :=
  match _call_api self (Selector.provider m) (remote w) m messages with
  | Ok text => Ok text
  | Raise e =>
      if enable_fallback self then
        let* fallback := Selector.getitem (models self) "gpt-3.5-turbo" in
        _call_api self Selector.OPENAI (remote_retry w) fallback messages
      else Raise e
  end.

(** *** [create], for a given tokenizer and string hash *)

Section WithRuntime.

(** [self.analyzer.encoder.encode] and the built-in [hash] on [str]. *)
Variable encode : string -> list Z.
Variable hash : string -> Z.

(** [_generate_cache_key]: [str(hash(query))] *)
Definition _generate_cache_key (query : string) : string := pretty (hash query).

(** The cache lookup at the head of [create]: a stored entry counts only
    while [time.time() - cached["timestamp"] < self.cache_ttl]. *)
Definition cache_get (self : SmartRouter) (now : Q) (query : string)
  : option RouterResponse :=
  match cache self !! _generate_cache_key query with
  | Some cached =>
      if Qlt_bool (now - timestamp cached) (inject_Z (cache_ttl self))
      then Some (response cached)
      else None
  | None => None
  end.

(** The cache store at the end of [create]. *)
Definition cache_put (self : SmartRouter) (now : Q) (query : string)
  (r : RouterResponse) : gmap string CacheEntry :=
  <[_generate_cache_key query := mkCacheEntry r now]> (cache self).

(** The model choice of [create]: automatic, or by explicit name. *)
Definition choose_model (self : SmartRouter) (complexity : QueryComplexity)
  (model : string) : result Selector.Model :=
  if String.eqb model "auto" then
    Selector.select_model (models self) complexity (strategy self)
                          (custom_rules self)
  else
    match models self !! model with
    | Some m => Ok m
    | None => Raise (ValueError ("Unknown model: " +:+ model))
    end.

(** [create(messages, model)]: the response and the router afterwards, or
    the exception raised (the router is then as it was). *)
Definition create (self : SmartRouter) (w : World) (messages : list Message)
  (model : string) : result (RouterResponse * SmartRouter) :=
  let query := _extract_query messages in
  match cache_get self (t_lookup w) query with
  | Some cached_response => Ok (cached_response, self)
  | None =>
      let complexity := Analyzer.analyze encode query in
      let* selected_model := choose_model self complexity model in
      let* response_content := _call_model_api self w selected_model messages in
      let latency := t_end w - t_start w in
      let output_tokens := (Z.of_nat (String.length response_content) / 4)%Z in
      let actual_cost :=
        _calculate_cost selected_model (token_count complexity) output_tokens in
      let* gpt4 := Selector.getitem (models self) "gpt-4" in
      let gpt4_cost := _calculate_cost gpt4 (token_count complexity) output_tokens in
      let savings := Py.max 0 (gpt4_cost - actual_cost) in
      let response :=
        mkRouterResponse response_content
          (Selector.name selected_model)
          (Selector.provider_value (Selector.provider selected_model))
          (token_count complexity) output_tokens actual_cost savings latency
          None in
      let tracker' :=
        Tracker.track_request (tracker self) (t_track w)
          (Selector.name selected_model)
          (Selector.provider_value (Selector.provider selected_model))
          (token_count complexity) output_tokens actual_cost savings latency
          None in
      Ok (response,
          set_tracker_cache self tracker' (cache_put self (t_store w) query response))
  end.

(** [get_analytics] *)
Definition get_analytics (self : SmartRouter) (now : Q) (period_days : Z)
  : Tracker.Analytics :=
  Tracker.get_analytics (tracker self) now period_days.

(** The routers a program can hold: a fresh one, then rule additions and
    completed [create] calls. *)
Inductive reachable : SmartRouter -> Prop :=
  | reachable_init k1 k2 k3 k4 strat budget ttl fb :
      reachable (__init__ k1 k2 k3 k4 strat budget ttl fb)
  | reachable_add_rule self rule :
      reachable self -> reachable (add_rule self rule)
  | reachable_create self w messages model r self' :
      reachable self ->
      create self w messages model = Ok (r, self') ->
      reachable self'.

End WithRuntime.

End Router.

(** * Vocabulary of the statements *)

(** A rule can decide a selection: its predicate holds and its model is a
    key of the catalog. *)
Definition applicable (ms : gmap string Selector.Model) (c : QueryComplexity)
  (r : RoutingRule) : Prop :=
  condition r c = true /\ is_Some (ms !! model r).

Definition applicable_b (ms : gmap string Selector.Model) (c : QueryComplexity)
  (r : RoutingRule) : bool :=
  condition r c && bool_decide (is_Some (ms !! model r)).

(** The first applicable rule of a list. *)
Fixpoint first_applicable (ms : gmap string Selector.Model) (c : QueryComplexity)
  (l : list RoutingRule) : option RoutingRule :=
  match l with
  | [] => None
  | r :: l' => if applicable_b ms c r then Some r else first_applicable ms c l'
  end.

(** Priorities never increase along the list. *)
Definition descending (l : list RoutingRule) : Prop :=
  StronglySorted (fun a b => (priority b <= priority a)%Z) l.

(** [alt] occurs in [s] as a contiguous piece. *)
Definition occurs (alt s : string) : Prop :=
  exists pre post : string, s = pre +:+ alt +:+ post.

(** One of the patterns of a category matches [s]: some alternative of some
    pattern occurs in it. *)
Definition category_matches (patterns : list Analyzer.pattern) (s : string) : Prop :=
  exists p, p ∈ patterns /\ exists alt, alt ∈ p /\ occurs alt s.

(** Rules used in the checks below. *)
Definition always (_ : QueryComplexity) : bool := true.

Definition to_gpt4 : RoutingRule := mkRoutingRule "to_gpt4" always "gpt-4" 50.

Definition to_mistral : RoutingRule :=
  mkRoutingRule "to_mistral" always "mistral-7b" 50.

Definition to_cheap : RoutingRule :=
  mkRoutingRule "to_cheap" always "gpt-3.5-turbo" 10.

Definition to_retired : RoutingRule :=
  mkRoutingRule "to_retired" always "text-davinci-003" 200.

(** Two descriptors on either side of the 0.7 threshold. *)
Definition score_06 : QueryComplexity :=
  mkQueryComplexity 40 0.7 "general" 40 [] 0.6.

Definition score_08 : QueryComplexity :=
  mkQueryComplexity 120 0.9 "math" 180 [] 0.8.

(** A response is priced from the catalog: its cost is that of its token
    counts at the prices of the model it names, and its savings is the
    clamped difference to the cost of the same counts on gpt-4. *)
Definition priced (r : Router.RouterResponse) : Prop :=
  exists m b : Selector.Model,
    Selector._initialize_models !! Router.model r = Some m
    /\ Selector._initialize_models !! "gpt-4" = Some b
    /\ (Router.cost r
        == inject_Z (Router.input_tokens r) / 1000 * Selector.cost_per_1k_input m
           + inject_Z (Router.output_tokens r) / 1000 * Selector.cost_per_1k_output m)%Q
    /\ (Router.savings r
        == Qmax 0 (inject_Z (Router.input_tokens r) / 1000 * Selector.cost_per_1k_input b
                   + inject_Z (Router.output_tokens r) / 1000 * Selector.cost_per_1k_output b
                   - Router.cost r))%Q
    /\ (0 <= Router.savings r)%Q.

(** A toy runtime for the checks: one token per character, and the length
    of the text as its hash. *)
Definition char_encode (s : string) : list Z :=
  map (fun a => Z.of_nat (nat_of_ascii a)) (list_ascii_of_string s).

Definition length_hash (s : string) : Z := Z.of_nat (String.length s).

Definition message (role content : string) : gmap string string :=
  <["role" := role]> (<["content" := content]> ∅).

Definition demo_messages : list (gmap string string) :=
  [message "system" "You are a helpful assistant.";
   message "user" "What is the capital of France?"].

Definition demo_router : Router.SmartRouter :=
  Router.__init__ (Some "sk-openai") (Some "sk-anthropic") (Some "sk-google")
                  (Some "sk-mistral") "cost_optimized" None 3600 true.

(** Every provider answers. *)
Definition demo_world : Router.World :=
  Router.mkWorld (fun _ _ _ => Ok "The capital of France is Paris.")
                 (fun _ _ _ => Ok "Paris.")
                 100 101 102 103 104.

(** The first call fails, the fallback call answers. *)
Definition outage_world : Router.World :=
  Router.mkWorld (fun _ _ _ => Raise (ProviderError "503 Service Unavailable"))
                 (fun _ _ _ => Ok "The capital of France is Paris.")
                 100 101 102 103 104.

(** The mathematical sum of a list of rationals. *)
Definition Qsum (xs : list Q) : Q := fold_right Qplus 0%Q xs.

(** Tracking a request given as a record, with its own timestamp. *)
Definition record (t : Tracker.CostTracker) (r : Tracker.request_data)
  : Tracker.CostTracker :=
  Tracker.track_request t (Tracker.timestamp r) (Tracker.model r)
    (Tracker.provider r) (Tracker.input_tokens r) (Tracker.output_tokens r)
    (Tracker.cost r) (Tracker.savings r) (Tracker.latency r)
    (Some (Tracker.timestamp r)).

(** The record is younger than [days] days at time [now]. *)
Definition in_window (now : Q) (days : Z) (r : Tracker.request_data) : bool :=
  Qlt_bool (now - Tracker.timedelta days) (Tracker.timestamp r).

(** The request tracked by the demo call: 30 input and 7 output tokens on
    mistral-7b. *)
Definition small_request : Tracker.request_data :=
  Tracker.mkRequest 103 "mistral-7b" "mistral" 30 7 0.0000074 0.0013126 1.



(** ** Vocabulary of the further properties *)


(** The task names of the analyzer's tables. *)
Definition task_names : list string :=
  ["simple_qa"; "summarization"; "code"; "analysis"; "creative"; "math";
   "reasoning"; "general"].

(** The capability tags the analyzer can emit. *)
Definition capability_names : list string :=
  ["code_generation"; "mathematical_reasoning"; "complex_reasoning";
   "long_context"; "structured_output"].

(** The rules of priority [p], in list order. *)
Definition with_priority (p : Z) (l : list RoutingRule) : list RoutingRule :=
  List.filter (fun r => (priority r =? p)%Z) l.

(** The tracked requests of model [m], and those of day [d]. *)
Definition of_model (m : string) (rs : list Tracker.request_data)
  : list Tracker.request_data :=
  List.filter (fun r => String.eqb (Tracker.model r) m) rs.

Definition on_day (d : Z) (rs : list Tracker.request_data)
  : list Tracker.request_data :=
  List.filter (fun r => (Tracker.date (Tracker.timestamp r) =? d)%Z) rs.

(** The router holds a usable key for the client of provider [api]. *)
Definition has_key (self : Router.SmartRouter) (api : Selector.ModelProvider)
  : bool :=
  match Router.api_keys self !! Selector.provider_value api with
  | Some k => Router.truthy k
  | None => false
  end.

(** The usage record of a response tracked at time [t]. *)
Definition as_request (t : Q) (r : Router.RouterResponse) : Tracker.request_data :=
  Tracker.mkRequest t (Router.model r) (Router.provider r)
    (Router.input_tokens r) (Router.output_tokens r) (Router.cost r)
    (Router.savings r) (Router.latency r).

(** Another question of the same length as the one of [demo_messages]. *)
Definition norway_messages : list (gmap string string) :=
  [message "user" "What is the capital of Norway?"].

(** The accounting of a response: token counts, cost and savings are not
    negative; unless the model is claude-3-opus, cost and savings add up to
    the cost of the same token counts on gpt-4; on gpt-4 itself nothing is
    saved. *)
Definition accounted (r : Router.RouterResponse) : Prop :=
  (0 <= Router.input_tokens r)%Z
  /\ (0 <= Router.output_tokens r)%Z
  /\ (0 <= Router.cost r)%Q
  /\ (0 <= Router.savings r)%Q
  /\ (Router.model r <> "claude-3-opus" ->
      (Router.cost r + Router.savings r
       == Router._calculate_cost Selector.gpt_4 (Router.input_tokens r)
            (Router.output_tokens r))%Q)
  /\ (Router.model r = "gpt-4" -> (Router.savings r == 0)%Q).


(** * Checks on concrete inputs *)

Example detect_capital :
  Analyzer._detect_task_type "What is the capital of France?" = "simple_qa".
Proof. vm_compute. reflexivity. Qed.

Example detect_quicksort :
  Analyzer._detect_task_type "Write a Python function to implement quicksort"
  = "code".
Proof. vm_compute. reflexivity. Qed.

Example detect_hello : Analyzer._detect_task_type "Hello there" = "general".
Proof. vm_compute. reflexivity. Qed.

Example capabilities_sum :
  Analyzer._detect_required_capabilities "Return 12+30 as JSON" "general"
  = ["mathematical_reasoning"; "structured_output"].
Proof. vm_compute. reflexivity. Qed.

Example getitem_gpt4 :
  Selector.getitem Selector._initialize_models "gpt-4" = Ok Selector.gpt_4.
Proof. vm_compute. reflexivity. Qed.

Example test_cost_optimized_simple :
  Selector.select_model Selector._initialize_models simple_complexity
    "cost_optimized" [] = Ok Selector.mistral_7b.
Proof. vm_compute. reflexivity. Qed.

Example test_cost_optimized_complex :
  Selector.select_model Selector._initialize_models complex_complexity
    "cost_optimized" [] = Ok Selector.gpt_4.
Proof. vm_compute. reflexivity. Qed.

Example test_balanced_code :
  Selector.select_model Selector._initialize_models code_complexity
    "balanced" [] = Ok Selector.gpt_4.
Proof. vm_compute. reflexivity. Qed.

Example test_rule_wins :
  Selector.select_model Selector._initialize_models
    (mkQueryComplexity 50 0.6 "code" 100 ["code_generation"] 0.2)
    "cost_optimized" [code_to_gpt4] = Ok Selector.gpt_4.
Proof. vm_compute. reflexivity. Qed.

(** * Properties *)

(** Case analysis on every condition of a cascade of [if]s. *)
Ltac case_ifs :=
  repeat match goal with
         | |- context [if ?b then _ else _] => destruct b
         end.

(** ** Numbers *)

Lemma Qlt_bool_true (a b : Q) : Qlt_bool a b = true <-> (a < b)%Q.
Proof.
  unfold Qlt_bool. rewrite negb_true_iff. split.
  - intros H. apply Qnot_le_lt. intros Hle.
    apply Qle_bool_iff in Hle. congruence.
  - intros H. destruct (Qle_bool b a) eqn:E; [|reflexivity].
    apply Qle_bool_iff in E. exfalso. eapply Qlt_not_le; eauto.
Qed.

Lemma Qlt_bool_false (a b : Q) : Qlt_bool a b = false <-> (b <= a)%Q.
Proof.
  unfold Qlt_bool. rewrite negb_false_iff. apply Qle_bool_iff.
Qed.

Lemma max_Qmax (a b : Q) : (Py.max a b == Qmax a b)%Q.
Proof.
  unfold Py.max. destruct (Qlt_bool a b) eqn:E.
  - apply Qlt_bool_true in E. symmetry. apply Q.max_r. lra.
  - apply Qlt_bool_false in E. symmetry. apply Q.max_l. lra.
Qed.

Lemma max_lower_bound (a b : Q) : (a <= Py.max a b)%Q.
Proof.
  unfold Py.max. destruct (Qlt_bool a b) eqn:E.
  - apply Qlt_bool_true in E. lra.
  - lra.
Qed.

(** ** The catalog *)

Lemma getitem_Ok (ms : gmap string Selector.Model) (k : string) (m : Selector.Model) :
  Selector.getitem ms k = Ok m <-> ms !! k = Some m.
Proof.
  unfold Selector.getitem. destruct (ms !! k); split; congruence.
Qed.

(** Every entry of the catalog is filed under its own name. *)
Lemma catalog_keyed_by_name (k : string) (m : Selector.Model) :
  Selector._initialize_models !! k = Some m -> Selector.name m = k.
Proof.
  revert k m. change (map_Forall (fun k m => Selector.name m = k)
                                 Selector._initialize_models).
  unfold Selector._initialize_models.
  repeat (apply map_Forall_insert_2; [reflexivity|]).
  apply map_Forall_empty.
Qed.

(** ** Rules: the sort and the loop *)

Lemma applicable_b_spec ms c r : applicable_b ms c r = true <-> applicable ms c r.
Proof.
  unfold applicable_b, applicable.
  rewrite andb_true_iff, bool_decide_eq_true. reflexivity.
Qed.

Lemma insert_rule_perm (r : RoutingRule) (l : list RoutingRule) :
  Selector.insert_rule r l ≡ₚ r :: l.
Proof.
  induction l as [|x l IH]; simpl; [reflexivity|].
  destruct (priority r <? priority x)%Z; [|reflexivity].
  rewrite IH. apply Permutation_swap.
Qed.

Lemma sorted_perm (l : list RoutingRule) : Selector.sorted l ≡ₚ l.
Proof.
  induction l as [|x l IH]; simpl; [reflexivity|].
  rewrite insert_rule_perm, IH. reflexivity.
Qed.

Lemma insert_rule_descending (r : RoutingRule) (l : list RoutingRule) :
  descending l -> descending (Selector.insert_rule r l).
Proof.
  unfold descending. induction l as [|x l IH]; simpl; intros Hl.
  - constructor; [constructor|constructor].
  - destruct (priority r <? priority x)%Z eqn:E.
    + apply Z.ltb_lt in E. inversion Hl as [|? ? Hl' Hx]; subst.
      constructor; [apply IH; assumption|].
      apply Forall_forall. intros y Hy.
      rewrite insert_rule_perm in Hy.
      apply elem_of_cons in Hy as [->|Hy]; [lia|].
      rewrite Forall_forall in Hx. apply Hx. assumption.
    + apply Z.ltb_ge in E. constructor; [assumption|].
      inversion Hl as [|? ? Hl' Hx]; subst.
      constructor; [assumption|].
      eapply Forall_impl; [exact Hx|]. simpl. intros; lia.
Qed.

Lemma sorted_descending (l : list RoutingRule) : descending (Selector.sorted l).
Proof.
  induction l as [|x l IH]; simpl.
  - constructor.
  - apply insert_rule_descending, IH.
Qed.

(** The loop of [select_model] returns the catalog entry of the first
    applicable rule. *)
Lemma apply_rules_first ms c (l : list RoutingRule) :
  Selector.apply_rules ms l c
  = first_applicable ms c l ≫= (fun r => ms !! model r).
Proof.
  induction l as [|r l IH]; simpl; [reflexivity|].
  unfold applicable_b. destruct (condition r c); simpl; [|exact IH].
  destruct (ms !! model r) as [m|] eqn:E.
  - rewrite bool_decide_eq_true_2 by eauto. simpl. rewrite E. reflexivity.
  - rewrite bool_decide_eq_false_2 by (intros [? ?]; congruence). exact IH.
Qed.

Lemma first_applicable_Some ms c (l : list RoutingRule) r :
  first_applicable ms c l = Some r -> r ∈ l /\ applicable ms c r.
Proof.
  induction l as [|x l IH]; simpl; [discriminate|].
  destruct (applicable_b ms c x) eqn:E.
  - intros [= <-]. split; [left|]. apply applicable_b_spec, E.
  - intros H. destruct (IH H). split; [right|]; assumption.
Qed.

Lemma first_applicable_None ms c (l : list RoutingRule) :
  first_applicable ms c l = None <-> forall r, r ∈ l -> ~ applicable ms c r.
Proof.
  induction l as [|x l IH]; simpl.
  - split; [|reflexivity]. intros _ r Hr. inversion Hr.
  - destruct (applicable_b ms c x) eqn:E.
    + split; [discriminate|]. intros H. exfalso.
      apply (H x); [left|]. apply applicable_b_spec, E.
    + rewrite IH. split.
      * intros H r Hr. apply elem_of_cons in Hr as [->|Hr]; [|auto].
        rewrite <- applicable_b_spec. congruence.
      * intros H r Hr. apply H. right. assumption.
Qed.

(** On a descending list the first applicable rule has the highest
    priority of all applicable ones. *)
Lemma first_applicable_top ms c (l : list RoutingRule) r :
  descending l -> first_applicable ms c l = Some r ->
  forall x, x ∈ l -> applicable ms c x -> (priority x <= priority r)%Z.
Proof.
  unfold descending. induction l as [|y l IH]; simpl; intros Hl; [discriminate|].
  inversion Hl as [|? ? Hl' Hy]; subst.
  destruct (applicable_b ms c y) eqn:E.
  - intros [= <-] x Hx _. apply elem_of_cons in Hx as [->|Hx]; [lia|].
    rewrite Forall_forall in Hy. apply Hy, Hx.
  - intros H x Hx Happ. apply elem_of_cons in Hx as [->|Hx].
    + apply applicable_b_spec in Happ. congruence.
    + eapply IH; eauto.
Qed.

(** Inserting into a descending list: the new rule takes over exactly when
    it is applicable and no applicable rule of strictly higher priority is
    present. *)
Lemma first_applicable_insert ms c (r : RoutingRule) (l : list RoutingRule) :
  descending l ->
  first_applicable ms c (Selector.insert_rule r l)
  = if applicable_b ms c r then
      match first_applicable ms c l with
      | Some x => if (priority r <? priority x)%Z then Some x else Some r
      | None => Some r
      end
    else first_applicable ms c l.
Proof.
  unfold descending. induction l as [|x l IH]; intros Hl; simpl.
  - destruct (applicable_b ms c r); reflexivity.
  - inversion Hl as [|? ? Hl' Hx]; subst.
    destruct (priority r <? priority x)%Z eqn:E; simpl.
    + rewrite (IH Hl'). destruct (applicable_b ms c x) eqn:Ex.
      * rewrite E. destruct (applicable_b ms c r); reflexivity.
      * reflexivity.
    + destruct (applicable_b ms c r) eqn:Er; [|reflexivity].
      destruct (applicable_b ms c x) eqn:Ex; [rewrite E; reflexivity|].
      destruct (first_applicable ms c l) as [y|] eqn:Ey; [|reflexivity].
      apply first_applicable_Some in Ey as [Hy _].
      rewrite Forall_forall in Hx. apply Hx in Hy.
      apply Z.ltb_ge in E.
      destruct (priority r <? priority y)%Z eqn:E'; [|reflexivity].
      apply Z.ltb_lt in E'. lia.
Qed.

Lemma first_applicable_sorted ms c (l1 l2 : list RoutingRule) (r : RoutingRule) :
  applicable ms c r ->
  (forall x, x ∈ l1 -> applicable ms c x -> (priority x < priority r)%Z) ->
  (forall x, x ∈ l2 -> applicable ms c x -> (priority x <= priority r)%Z) ->
  first_applicable ms c (Selector.sorted (l1 ++ r :: l2)) = Some r.
Proof.
  intros Hr H1 H2. induction l1 as [|a l1 IH]; simpl.
  - change (foldr Selector.insert_rule [] l2) with (Selector.sorted l2).
    rewrite first_applicable_insert by apply sorted_descending.
    apply applicable_b_spec in Hr as ->.
    destruct (first_applicable ms c (Selector.sorted l2)) as [x|] eqn:E;
      [|reflexivity].
    apply first_applicable_Some in E as [Hx Hax].
    rewrite sorted_perm in Hx. specialize (H2 x Hx Hax).
    destruct (priority r <? priority x)%Z eqn:E'; [|reflexivity].
    apply Z.ltb_lt in E'. lia.
  - change (foldr Selector.insert_rule [] (l1 ++ r :: l2))
      with (Selector.sorted (l1 ++ r :: l2)).
    rewrite first_applicable_insert by apply sorted_descending.
    rewrite IH by (intros x Hx; apply H1; right; exact Hx).
    destruct (applicable_b ms c a) eqn:Ea; [|reflexivity].
    apply applicable_b_spec in Ea.
    assert (priority a < priority r)%Z as Hlt by (apply H1; [left|exact Ea]).
    apply Z.ltb_lt in Hlt. rewrite Hlt. reflexivity.
Qed.

(** ** C3: custom rules *)

(** The rule at the head of the top-priority applicable rules decides, under
    every strategy; so does it for every reordering of the list in which the
    later applicable rules of equal priority name the same model. *)
Lemma select_model_first_top
  (ms : gmap string Selector.Model) (c : QueryComplexity) (strategy : string)
  (l1 l2 : list RoutingRule) (r : RoutingRule) (m : Selector.Model) :
  condition r c = true ->
  ms !! model r = Some m ->
  (forall x, x ∈ l1 -> applicable ms c x -> (priority x < priority r)%Z) ->
  (forall x, x ∈ l2 -> applicable ms c x -> (priority x <= priority r)%Z) ->
  Selector.select_model ms c strategy (l1 ++ r :: l2) = Ok m
  /\ forall rules',
       rules' ≡ₚ l1 ++ r :: l2 ->
       (forall x, x ∈ l2 -> applicable ms c x -> priority x = priority r ->
                  model x = model r) ->
       Selector.select_model ms c strategy rules' = Ok m.
Proof.
  intros Hc Hm H1 H2.
  assert (applicable ms c r) as Hr by (split; eauto).
  split.
  - unfold Selector.select_model. rewrite apply_rules_first.
    rewrite (first_applicable_sorted ms c l1 l2 r Hr H1 H2). simpl.
    rewrite Hm. reflexivity.
  - intros rules' Hperm Htie.
    unfold Selector.select_model. rewrite apply_rules_first.
    destruct (first_applicable ms c (Selector.sorted rules')) as [r0|] eqn:E.
    + pose proof (first_applicable_top ms c _ r0 (sorted_descending rules') E)
        as Htop.
      apply first_applicable_Some in E as [Hin Happ].
      assert (priority r <= priority r0)%Z as Hge.
      { apply Htop; [|exact Hr]. rewrite sorted_perm, Hperm.
        apply elem_of_app. right. left. }
      rewrite sorted_perm, Hperm in Hin.
      assert (model r0 = model r) as Hsame.
      { apply elem_of_app in Hin as [Hin|Hin].
        - specialize (H1 r0 Hin Happ). lia.
        - apply elem_of_cons in Hin as [->|Hin]; [reflexivity|].
          apply Htie; [assumption..|].
          specialize (H2 r0 Hin Happ). lia. }
      simpl. rewrite Hsame, Hm. reflexivity.
    + exfalso. rewrite first_applicable_None in E. apply (E r); [|exact Hr].
      rewrite sorted_perm, Hperm. apply elem_of_app. right. left.
Qed.

(** A list with an applicable rule splits at the first of its applicable
    rules of highest priority. *)
Lemma top_rule_split ms c (rules : list RoutingRule) (r0 : RoutingRule) :
  r0 ∈ rules -> applicable ms c r0 ->
  exists l1 r l2,
    rules = l1 ++ r :: l2
    /\ applicable ms c r
    /\ (forall x, x ∈ l1 -> applicable ms c x -> (priority x < priority r)%Z)
    /\ (forall x, x ∈ l2 -> applicable ms c x -> (priority x <= priority r)%Z).
Proof.
  revert r0. induction rules as [|a rest IH]; intros r0 Hin Happ.
  - inversion Hin.
  - destruct (first_applicable ms c rest) as [r1|] eqn:E.
    + apply first_applicable_Some in E as [Hin1 Happ1].
      destruct (IH r1 Hin1 Happ1) as (l1 & r & l2 & -> & Hr & Hl1 & Hl2).
      destruct (applicable_b ms c a && (priority r <=? priority a)%Z) eqn:Ea.
      * apply andb_true_iff in Ea as [Ha Hle].
        apply applicable_b_spec in Ha. apply Z.leb_le in Hle.
        exists [], a, (l1 ++ r :: l2). split; [reflexivity|]. split; [exact Ha|].
        split; [intros x Hx; inversion Hx|].
        intros x Hx Hax. apply elem_of_app in Hx as [Hx|Hx].
        -- specialize (Hl1 x Hx Hax). lia.
        -- apply elem_of_cons in Hx as [->|Hx]; [exact Hle|].
           specialize (Hl2 x Hx Hax). lia.
      * exists (a :: l1), r, l2. split; [reflexivity|]. split; [exact Hr|].
        split; [|exact Hl2].
        intros x Hx Hax. apply elem_of_cons in Hx as [->|Hx]; [|auto].
        apply applicable_b_spec in Hax. rewrite Hax in Ea. simpl in Ea.
        apply Z.leb_gt in Ea. exact Ea.
    + rewrite first_applicable_None in E.
      apply elem_of_cons in Hin as [->|Hin]; [|exfalso; eapply E; eauto].
      exists [], a, rest. split; [reflexivity|]. split; [exact Happ|].
      split; [intros x Hx; inversion Hx|].
      intros x Hx Hax. exfalso. eapply E; eauto.
Qed.

(** C3 (as amended).  If at least one rule of the list holds for the
    complexity and names a catalog model, then among such rules there is one,
    [r], of the highest priority and added before every other of that
    priority, and selection returns its catalog model under every strategy,
    whatever rules with unknown models or false predicates stand around it.
    Every reordering of the list selects the same model provided all such
    rules of that highest priority name the model of [r]. *)
Theorem select_model_rule_precedence
  (ms : gmap string Selector.Model) (c : QueryComplexity) (strategy : string)
  (rules : list RoutingRule) (r0 : RoutingRule) :
  r0 ∈ rules -> condition r0 c = true -> is_Some (ms !! model r0) ->
  exists l1 r l2 m,
    rules = l1 ++ r :: l2
    /\ condition r c = true
    /\ ms !! model r = Some m
    /\ (forall x, x ∈ rules -> applicable ms c x -> (priority x <= priority r)%Z)
    /\ (forall x, x ∈ l1 -> applicable ms c x -> (priority x < priority r)%Z)
    /\ Selector.select_model ms c strategy rules = Ok m
    /\ forall rules',
         rules' ≡ₚ rules ->
         (forall x, x ∈ rules -> applicable ms c x -> priority x = priority r ->
                    model x = model r) ->
         Selector.select_model ms c strategy rules' = Ok m.
Proof.
  intros Hin Hc0 Hm0.
  destruct (top_rule_split ms c rules r0 Hin (conj Hc0 Hm0))
    as (l1 & r & l2 & -> & [Hc [m Hm]] & Hl1 & Hl2).
  destruct (select_model_first_top ms c strategy l1 l2 r m Hc Hm Hl1 Hl2)
    as [Hsel Hperm].
  exists l1, r, l2, m. split; [reflexivity|]. split; [exact Hc|].
  split; [exact Hm|]. split; [|split; [exact Hl1|split; [exact Hsel|]]].
  - intros x Hx Hax. apply elem_of_app in Hx as [Hx|Hx].
    + specialize (Hl1 x Hx Hax). lia.
    + apply elem_of_cons in Hx as [->|Hx]; [lia|]. exact (Hl2 x Hx Hax).
  - intros rules' Hp Htie. apply Hperm; [exact Hp|].
    intros x Hx. apply Htie. apply elem_of_app. right. right. exact Hx.
Qed.

(** At a concrete rule list: a low-priority rule, the deciding rule, and a
    higher-priority rule whose model is not in the catalog. *)
Lemma select_model_rule_precedence_witness :
  exists m,
    Selector.select_model Selector._initialize_models code_complexity
      "cost_optimized" [to_cheap; code_to_gpt4; to_retired] = Ok m.
Proof.
  destruct (select_model_rule_precedence Selector._initialize_models
              code_complexity "cost_optimized"
              [to_cheap; code_to_gpt4; to_retired] to_cheap)
    as (l1 & r & l2 & m & _ & _ & _ & _ & _ & Hsel & _).
  - left.
  - reflexivity.
  - exists Selector.gpt_35_turbo. vm_compute. reflexivity.
  - exists m. exact Hsel.
Defined.

Example rule_precedence_selects_gpt4 :
  Selector.select_model Selector._initialize_models code_complexity
    "cost_optimized" [to_cheap; code_to_gpt4; to_retired] = Ok Selector.gpt_4.
Proof. vm_compute. reflexivity. Qed.

(** C3 (counterexample).  Two rules that both hold, both name catalog
    models and share the highest priority: the selected model follows the
    order in which they were added. *)
Lemma equal_priority_order_dependent :
  let ms := Selector._initialize_models in
  [to_gpt4; to_mistral] ≡ₚ [to_mistral; to_gpt4]
  /\ (forall r, r ∈ [to_gpt4; to_mistral] ->
        applicable ms simple_complexity r /\ priority r = 50%Z)
  /\ Selector.select_model ms simple_complexity "balanced" [to_gpt4; to_mistral]
     = Ok Selector.gpt_4
  /\ Selector.select_model ms simple_complexity "balanced" [to_mistral; to_gpt4]
     = Ok Selector.mistral_7b
  /\ Selector.gpt_4 <> Selector.mistral_7b.
Proof.
  simpl. split; [apply Permutation_swap|]. split; [|split; [|split]].
  - intros r Hr. apply elem_of_cons in Hr as [->|Hr];
      [|apply list_elem_of_singleton in Hr; subst r].
    + split; [split; [reflexivity|]|reflexivity].
      exists Selector.gpt_4. vm_compute. reflexivity.
    + split; [split; [reflexivity|]|reflexivity].
      exists Selector.mistral_7b. vm_compute. reflexivity.
  - vm_compute. reflexivity.
  - vm_compute. reflexivity.
  - discriminate.
Qed.

(** ** C2: the complexity score *)

Lemma size_list_to_set_le (l : list Z) :
  size (list_to_set l : gset Z) <= length l.
Proof.
  induction l as [|x l IH].
  - rewrite list_to_set_nil, size_empty. simpl. lia.
  - rewrite list_to_set_cons, size_union_alt, size_singleton. simpl.
    assert ((list_to_set l ∖ {[x]} : gset Z) ⊆ list_to_set l) as Hsub
      by (apply subseteq_difference_l; reflexivity).
    apply subseteq_size in Hsub. lia.
Qed.

Lemma ratio_bounds (u n : nat) :
  u <= n -> 0 < n ->
  (0 <= inject_Z (Z.of_nat u) / inject_Z (Z.of_nat n) <= 1)%Q.
Proof.
  intros Hun Hn.
  assert (0 < inject_Z (Z.of_nat n))%Q as Hpos.
  { change 0%Q with (inject_Z 0). rewrite <- Zlt_Qlt. lia. }
  split.
  - apply Qle_shift_div_l; [exact Hpos|]. rewrite Qmult_0_l.
    change 0%Q with (inject_Z 0). rewrite <- Zle_Qle. lia.
  - apply Qle_shift_div_r; [exact Hpos|]. rewrite Qmult_1_l.
    rewrite <- Zle_Qle. lia.
Qed.

Lemma task_scores_bounds (task : string) :
  (1 # 10 <= Analyzer.get Analyzer.task_scores task 0.5 <= 9 # 10)%Q.
Proof.
  unfold Analyzer.get.
  destruct (Analyzer.task_scores !! task) as [v|] eqn:E; simpl.
  - revert task v E.
    change (map_Forall (fun (_ : string) v => (1 # 10 <= v <= 9 # 10)%Q)
                       Analyzer.task_scores).
    unfold Analyzer.task_scores.
    repeat (apply map_Forall_insert_2; [split; discriminate|]).
    apply map_Forall_empty.
  - split; discriminate.
Qed.

(** The score of [_calculate_complexity_score] for a non-negative token
    count and a vocabulary ratio between 0 and 1. *)
Lemma calculate_complexity_score_bounds
  (tokens : Z) (vocab : Q) (task : string) (caps : list string) :
  (0 <= tokens)%Z -> (0 <= vocab <= 1)%Q ->
  (0 <= Analyzer._calculate_complexity_score tokens vocab task caps <= 1)%Q.
Proof.
  intros Ht [Hv0 Hv1]. unfold Analyzer._calculate_complexity_score.
  pose proof (task_scores_bounds task) as [Hs0 Hs1].
  set (ts := Analyzer.get Analyzer.task_scores task 0.5) in *.
  assert (0 <= inject_Z tokens / 500)%Q as Htok.
  { apply Qle_shift_div_l; [reflexivity|]. rewrite Qmult_0_l.
    change 0%Q with (inject_Z 0). rewrite <- Zle_Qle. exact Ht. }
  assert (0 <= inject_Z (Z.of_nat (length caps)) * 0.1)%Q as Hcap.
  { apply Qmult_le_0_compat; [|discriminate].
    change 0%Q with (inject_Z 0). rewrite <- Zle_Qle. lia. }
  set (a := (inject_Z tokens / 500)%Q) in *.
  set (b := (inject_Z (Z.of_nat (length caps)) * 0.1)%Q) in *.
  pose proof (Q.le_min_r a 1.0) as Ha1.
  pose proof (Q.le_min_r b 0.2) as Hb1.
  assert (0 <= Qmin a 1.0)%Q as Ha0 by (apply Q.min_glb; [exact Htok|discriminate]).
  assert (0 <= Qmin b 0.2)%Q as Hb0 by (apply Q.min_glb; [exact Hcap|discriminate]).
  set (x := Qmin a 1.0) in *. set (y := Qmin b 0.2) in *.
  split; lra.
Qed.

(** C2.  For every tokenizer and every query text, the empty one included,
    the complexity score computed by [analyze] lies between 0 and 1. *)
Theorem complexity_score_in_unit_interval
  (encode : string -> list Z) (query : string) :
  (0 <= complexity_score (Analyzer.analyze encode query) <= 1)%Q.
Proof.
  unfold Analyzer.analyze. simpl.
  apply calculate_complexity_score_bounds; [lia|].
  destruct (0 <? length (encode query))%nat eqn:E.
  - apply Nat.ltb_lt in E. apply ratio_bounds; [|exact E].
    apply size_list_to_set_le.
  - split; discriminate.
Qed.

(** ** C8: task-type detection *)

Lemma append_nil (t : string) : EmptyString +:+ t = t.
Proof. reflexivity. Qed.

Lemma append_cons (a : ascii) (s t : string) :
  String a s +:+ t = String a (s +:+ t).
Proof. reflexivity. Qed.

Lemma prefix_spec (n h : string) :
  String.prefix n h = true <-> exists post, h = n +:+ post.
Proof.
  revert h. induction n as [|a n IH]; intros h.
  - destruct h; simpl; (split; [eauto|reflexivity]).
  - setoid_rewrite append_cons. destruct h as [|b h]; simpl.
    + split; [discriminate|]. intros [post H]. discriminate H.
    + destruct (ascii_dec a b) as [->|Hne].
      * rewrite IH. split; intros [post H]; exists post; congruence.
      * split; [discriminate|]. intros [post H]. congruence.
Qed.

Lemma contains_spec (n h : string) : Analyzer.contains n h = true <-> occurs n h.
Proof.
  unfold occurs. induction h as [|b h IH]; cbn [Analyzer.contains].
  - rewrite prefix_spec. split.
    + intros [post H]. exists EmptyString, post. exact H.
    + intros ([|? ?] & post & H).
      * rewrite append_nil in H. eauto.
      * rewrite append_cons in H. discriminate H.
  - rewrite orb_true_iff, IH, prefix_spec. split.
    + intros [[post H]|(pre & post & H)].
      * exists EmptyString, post. exact H.
      * exists (String b pre), post. rewrite append_cons. congruence.
    + intros ([|a pre] & post & H).
      * left. rewrite append_nil in H. eauto.
      * right. rewrite append_cons in H. exists pre, post. congruence.
Qed.

Lemma re_search_spec (p : Analyzer.pattern) (s : string) :
  Analyzer.re_search p s = true <-> exists alt, alt ∈ p /\ occurs alt s.
Proof.
  unfold Analyzer.re_search. rewrite existsb_exists. split.
  - intros (alt & Hin & H). exists alt. split; [apply list_elem_of_In, Hin|].
    apply contains_spec, H.
  - intros (alt & Hin & H). exists alt. split; [apply list_elem_of_In, Hin|].
    apply contains_spec, H.
Qed.

Lemma any_pattern_spec (patterns : list Analyzer.pattern) (s : string) :
  Analyzer.any_pattern patterns s = true <-> category_matches patterns s.
Proof.
  unfold category_matches. induction patterns as [|p ps IH]; simpl.
  - split; [discriminate|]. intros (p & Hp & _). inversion Hp.
  - destruct (Analyzer.re_search p s) eqn:E.
    + split; [|reflexivity]. intros _. exists p. split; [left|].
      apply re_search_spec, E.
    + rewrite IH. split.
      * intros (q & Hq & H). exists q. split; [right; exact Hq|exact H].
      * intros (q & Hq & H). apply elem_of_cons in Hq as [->|Hq].
        -- apply re_search_spec in H. congruence.
        -- exists q. split; assumption.
Qed.

(** The loop over any table stops at the first entry with a matching
    pattern. *)
Lemma detect_in_first (table : list (string * list Analyzer.pattern))
  (s : string) (i : nat) (task : string) (patterns : list Analyzer.pattern) :
  table !! i = Some (task, patterns) ->
  Analyzer.any_pattern patterns s = true ->
  (forall j entry, j < i -> table !! j = Some entry ->
                   Analyzer.any_pattern entry.2 s = false) ->
  Analyzer.detect_in table s = task.
Proof.
  revert i. induction table as [|[t ps] table IH]; intros i Hi Hm Hbefore.
  - destruct i; discriminate Hi.
  - simpl. destruct i as [|i]; simpl in Hi.
    + injection Hi as -> ->. rewrite Hm. reflexivity.
    + pose proof (Hbefore 0 (t, ps) ltac:(lia) eq_refl) as H0.
      simpl in H0. rewrite H0.
      apply (IH i); [exact Hi|exact Hm|].
      intros j entry Hj Hl. apply (Hbefore (S j)); [lia|exact Hl].
Qed.

Lemma detect_in_none (table : list (string * list Analyzer.pattern)) (s : string) :
  (forall entry, entry ∈ table -> Analyzer.any_pattern entry.2 s = false) ->
  Analyzer.detect_in table s = "general".
Proof.
  induction table as [|[t ps] table IH]; intros H; simpl; [reflexivity|].
  pose proof (H (t, ps) ltac:(left)) as H0. simpl in H0. rewrite H0. apply IH. intros e He. apply H. right. exact He.
Qed.

(** C8.  The categories are tried in the order simple_qa, summarization,
    code, analysis, creative, math, reasoning.  A category one of whose
    patterns occurs in the lower-cased query is the result when no earlier
    category has such a pattern; without any match the result is
    general. *)
Theorem detect_task_type_first_match (query : string) :
  map fst Analyzer.task_patterns
  = ["simple_qa"; "summarization"; "code"; "analysis"; "creative"; "math";
     "reasoning"]
  /\ (forall i task patterns,
        Analyzer.task_patterns !! i = Some (task, patterns) ->
        category_matches patterns (Analyzer.lower query) ->
        (forall j task' patterns',
           j < i -> Analyzer.task_patterns !! j = Some (task', patterns') ->
           ~ category_matches patterns' (Analyzer.lower query)) ->
        Analyzer._detect_task_type query = task)
  /\ ((forall task patterns,
         (task, patterns) ∈ Analyzer.task_patterns ->
         ~ category_matches patterns (Analyzer.lower query)) ->
      Analyzer._detect_task_type query = "general").
Proof.
  split; [reflexivity|]. split.
  - intros i task patterns Hi Hm Hbefore.
    apply (detect_in_first _ _ i task patterns Hi).
    + apply any_pattern_spec, Hm.
    + intros j [t ps] Hj Hl. simpl.
      destruct (Analyzer.any_pattern ps (Analyzer.lower query)) eqn:E;
        [|reflexivity].
      exfalso. apply (Hbefore j t ps Hj Hl). apply any_pattern_spec, E.
  - intros Hnone. apply detect_in_none. intros [t ps] He. simpl.
    destruct (Analyzer.any_pattern ps (Analyzer.lower query)) eqn:E;
      [|reflexivity].
    exfalso. apply (Hnone t ps He). apply any_pattern_spec, E.
Qed.

(** A query with patterns of two categories, summarization ("summarize")
    and code ("python", "code"): the earlier category is returned. *)
Lemma detect_task_type_first_match_witness :
  Analyzer._detect_task_type "Summarize this Python code" = "summarization".
Proof.
  refine (proj1 (proj2 (detect_task_type_first_match
                          "Summarize this Python code"))
                1 "summarization" _ eq_refl _ _).
  - exists ["summarize"; "summary of"; "tldr"; "key points"].
    split; [left|]. exists "summarize". split; [left|].
    exists EmptyString, " this python code". vm_compute. reflexivity.
  - intros j task' patterns' Hj Hl Hm.
    destruct j as [|j]; [|lia]. injection Hl as <- <-.
    apply any_pattern_spec in Hm. vm_compute in Hm. discriminate Hm.
Defined.

(** ** C4: the cost-optimized ladder *)

(** The third and fourth tiers of the ladder: every score in [0.5, 0.7) goes
    to gpt-3.5-turbo and every score in [0.7, 0.85) to gemini-pro. *)
Lemma cost_optimized_middle_tiers (c1 c2 : QueryComplexity) :
  (0.5 <= complexity_score c1 < 0.7)%Q ->
  (0.7 <= complexity_score c2 < 0.85)%Q ->
  Selector._select_cost_optimized Selector._initialize_models c1
  = Ok Selector.gpt_35_turbo
  /\ Selector._select_cost_optimized Selector._initialize_models c2
     = Ok Selector.gemini_pro.
Proof.
  intros [H1 H1'] [H2 H2']. unfold Selector._select_cost_optimized.
  assert (Qlt_bool (complexity_score c1) 0.3 = false) as ->
    by (apply Qlt_bool_false; lra).
  assert (Qlt_bool (complexity_score c1) 0.5 = false) as ->
    by (apply Qlt_bool_false; lra).
  assert (Qlt_bool (complexity_score c1) 0.7 = true) as ->
    by (apply Qlt_bool_true; lra).
  assert (Qlt_bool (complexity_score c2) 0.3 = false) as ->
    by (apply Qlt_bool_false; lra).
  assert (Qlt_bool (complexity_score c2) 0.5 = false) as ->
    by (apply Qlt_bool_false; lra).
  assert (Qlt_bool (complexity_score c2) 0.7 = false) as ->
    by (apply Qlt_bool_false; lra).
  assert (Qlt_bool (complexity_score c2) 0.85 = true) as ->
    by (apply Qlt_bool_true; lra).
  split; vm_compute; reflexivity.
Qed.

(** C4 (evaluation at the failing input).  Score 0.6 is routed to
    gpt-3.5-turbo and the higher score 0.8 to gemini-pro, whose input and
    output prices are both lower. *)
Theorem cost_optimized_ladder_not_ascending :
  let ms := Selector._initialize_models in
  (complexity_score score_06 < complexity_score score_08)%Q
  /\ Selector._select_cost_optimized ms score_06 = Ok Selector.gpt_35_turbo
  /\ Selector._select_cost_optimized ms score_08 = Ok Selector.gemini_pro
  /\ (Selector.cost_per_1k_input Selector.gemini_pro
      < Selector.cost_per_1k_input Selector.gpt_35_turbo)%Q
  /\ (Selector.cost_per_1k_output Selector.gemini_pro
      < Selector.cost_per_1k_output Selector.gpt_35_turbo)%Q
  /\ (Router._calculate_cost Selector.gemini_pro 1000 1000
      < Router._calculate_cost Selector.gpt_35_turbo 1000 1000)%Q.
Proof.
  simpl. split; [reflexivity|]. split; [vm_compute; reflexivity|].
  split; [vm_compute; reflexivity|]. split; [reflexivity|].
  split; [reflexivity|]. vm_compute. reflexivity.
Qed.

(** ** C9: strategy names and explicit model names *)

Lemma getitem_catalog_total (c : QueryComplexity) (strategy : string) :
  exists m, Selector.select_by_strategy Selector._initialize_models c strategy
            = Ok m.
Proof.
  unfold Selector.select_by_strategy, Selector._select_cost_optimized,
    Selector._select_quality_first, Selector._select_balanced.
  case_ifs; eexists; vm_compute; reflexivity.
Qed.

(** Automatic selection over the catalog always yields a model. *)
Lemma select_model_total (c : QueryComplexity) (strategy : string)
  (rules : list RoutingRule) :
  exists m, Selector.select_model Selector._initialize_models c strategy rules
            = Ok m.
Proof.
  unfold Selector.select_model.
  destruct (Selector.apply_rules _ _ _) as [m|]; [eauto|].
  apply getitem_catalog_total.
Qed.

(** C9 (as amended).  A strategy name other than cost_optimized and
    quality_first is served as balanced, and over the catalog selection
    then yields a model instead of failing.  An explicit model name that is
    not a key of the catalog fails with the error "Unknown model: <name>". *)
Theorem unknown_strategy_is_balanced
  (self : Router.SmartRouter) (c : QueryComplexity) (strategy model : string) :
  strategy <> "cost_optimized" -> strategy <> "quality_first" ->
  model <> "auto" -> Router.models self !! model = None ->
  (forall rules,
     Selector.select_model (Router.models self) c strategy rules
     = Selector.select_model (Router.models self) c "balanced" rules)
  /\ (forall rules, exists m,
        Selector.select_model Selector._initialize_models c strategy rules = Ok m)
  /\ Router.choose_model self c model
     = Raise (ValueError ("Unknown model: " +:+ model)).
Proof.
  intros Hs1 Hs2 Hauto Hnone. split; [|split].
  - intros rules. unfold Selector.select_model, Selector.select_by_strategy.
    apply String.eqb_neq in Hs1, Hs2. rewrite Hs1, Hs2. reflexivity.
  - intros rules. apply select_model_total.
  - unfold Router.choose_model.
    apply String.eqb_neq in Hauto. rewrite Hauto, Hnone. reflexivity.
Qed.

Lemma unknown_strategy_is_balanced_witness :
  let self := Router.__init__ None None None None "cheapest" None 3600 true in
  Selector.select_model (Router.models self) simple_complexity "cheapest" []
  = Selector.select_model (Router.models self) simple_complexity "balanced" []
  /\ Router.choose_model self simple_complexity "gpt-5"
     = Raise (ValueError "Unknown model: gpt-5").
Proof.
  pose proof (unknown_strategy_is_balanced
                (Router.__init__ None None None None "cheapest" None 3600 true)
                simple_complexity "cheapest" "gpt-5"
                ltac:(discriminate) ltac:(discriminate) ltac:(discriminate)
                ltac:(vm_compute; reflexivity)) as (H1 & _ & H3).
  split; [apply H1|exact H3].
Defined.

(** C9 (counterexample).  The strategy name "cheapest" is none of the three
    known names, yet selection returns a model, the balanced choice. *)
Lemma unknown_strategy_selects :
  "cheapest" <> "cost_optimized" /\ "cheapest" <> "quality_first"
  /\ "cheapest" <> "balanced"
  /\ Selector.select_model Selector._initialize_models simple_complexity
       "cheapest" [] = Ok Selector.claude_3_haiku.
Proof.
  split; [discriminate|]. split; [discriminate|]. split; [discriminate|].
  vm_compute. reflexivity.
Qed.

(** ** The shape of a completed [create] call *)

Lemma create_inv (encode : string -> list Z) (hash : string -> Z)
  (self : Router.SmartRouter) (w : Router.World)
  (messages : list (gmap string string)) (hint : string)
  (r : Router.RouterResponse) (self' : Router.SmartRouter) :
  Router.create encode hash self w messages hint = Ok (r, self') ->
  let query := Router._extract_query messages in
  let c := Analyzer.analyze encode query in
  (Router.cache_get hash self (Router.t_lookup w) query = Some r /\ self' = self)
  \/ (Router.cache_get hash self (Router.t_lookup w) query = None
      /\ exists (sel gpt4 : Selector.Model) (text : string),
           Router.choose_model self c hint = Ok sel
           /\ Router._call_model_api self w sel messages = Ok text
           /\ Router.models self !! "gpt-4" = Some gpt4
           /\ r = Router.mkRouterResponse text (Selector.name sel)
                    (Selector.provider_value (Selector.provider sel))
                    (token_count c)
                    (Z.of_nat (String.length text) / 4)
                    (Router._calculate_cost sel (token_count c)
                       (Z.of_nat (String.length text) / 4))
                    (Py.max 0
                       (Router._calculate_cost gpt4 (token_count c)
                          (Z.of_nat (String.length text) / 4)
                        - Router._calculate_cost sel (token_count c)
                            (Z.of_nat (String.length text) / 4)))
                    (Router.t_end w - Router.t_start w) None
           /\ Router.models self' = Router.models self
           /\ Router.cache_ttl self' = Router.cache_ttl self
           /\ Router.cache self' = Router.cache_put hash self (Router.t_store w) query r
           /\ Tracker.requests (Router.tracker self')
              = Tracker.requests (Router.tracker self)
                ++ [Tracker.mkRequest (Router.t_track w) (Router.model r)
                      (Router.provider r) (Router.input_tokens r)
                      (Router.output_tokens r) (Router.cost r)
                      (Router.savings r) (Router.latency r)]).
Proof.
  intros H query c. unfold Router.create in H. fold query in H. fold c in H.
  destruct (Router.cache_get hash self (Router.t_lookup w) query) as [r0|] eqn:Eg.
  - injection H as <- <-. left. split; reflexivity.
  - right. split; [reflexivity|].
    destruct (Router.choose_model self c hint) as [sel|e] eqn:Es;
      simpl in H; [|discriminate H].
    destruct (Router._call_model_api self w sel messages) as [text|e] eqn:Ec;
      simpl in H; [|discriminate H].
    unfold Selector.getitem in H.
    destruct (Router.models self !! "gpt-4") as [gpt4|] eqn:E4;
      simpl in H; [|discriminate H].
    injection H as <- <-.
    exists sel, gpt4, text.
    repeat (split; [first [reflexivity | assumption]|]). reflexivity.
Qed.

(** ** C1: cost and savings *)

Lemma apply_rules_lookup ms (l : list RoutingRule) c (m : Selector.Model) :
  Selector.apply_rules ms l c = Some m -> exists k, ms !! k = Some m.
Proof.
  induction l as [|r l IH]; simpl; [discriminate|].
  destruct (condition r c); [|exact IH].
  destruct (ms !! model r) as [m'|] eqn:E; [|exact IH].
  intros [= <-]. eauto.
Qed.

Lemma select_model_lookup ms c strategy rules (m : Selector.Model) :
  Selector.select_model ms c strategy rules = Ok m -> exists k, ms !! k = Some m.
Proof.
  unfold Selector.select_model.
  destruct (Selector.apply_rules ms (Selector.sorted rules) c) as [m'|] eqn:E.
  - intros [= <-]. eapply apply_rules_lookup, E.
  - unfold Selector.select_by_strategy, Selector._select_cost_optimized,
      Selector._select_quality_first, Selector._select_balanced.
    case_ifs; intros H; apply getitem_Ok in H; eauto.
Qed.

Lemma choose_model_lookup self c hint (sel : Selector.Model) :
  Router.choose_model self c hint = Ok sel ->
  exists k, Router.models self !! k = Some sel.
Proof.
  unfold Router.choose_model. destruct (String.eqb hint "auto").
  - apply select_model_lookup.
  - destruct (Router.models self !! hint) as [m|] eqn:E; [|discriminate].
    intros [= <-]. eauto.
Qed.

Lemma calculate_cost_formula (m : Selector.Model) (input_tokens output_tokens : Z) :
  (Router._calculate_cost m input_tokens output_tokens
   == inject_Z input_tokens / 1000 * Selector.cost_per_1k_input m
      + inject_Z output_tokens / 1000 * Selector.cost_per_1k_output m)%Q.
Proof. unfold Router._calculate_cost. reflexivity. Qed.

Section Reachable.

Variable encode : string -> list Z.
Variable hash : string -> Z.

Lemma reachable_models (self : Router.SmartRouter) :
  Router.reachable encode hash self ->
  Router.models self = Selector._initialize_models.
Proof.
  induction 1 as [| |self w messages hint r self' _ IH Hc]; try assumption.
  - reflexivity.
  - apply create_inv in Hc as [[_ ->]|(_ & sel & gpt4 & text & H)]; [exact IH|].
    destruct H as (_ & _ & _ & _ & Hm & _). congruence.
Qed.

(** A response computed by [create] over the catalog is priced from it. *)
Lemma computed_response_priced (self : Router.SmartRouter) (w : Router.World)
  (messages : list (gmap string string)) (hint : string)
  (r : Router.RouterResponse) (self' : Router.SmartRouter) :
  Router.models self = Selector._initialize_models ->
  Router.cache_get hash self (Router.t_lookup w) (Router._extract_query messages)
  = None ->
  Router.create encode hash self w messages hint = Ok (r, self') ->
  priced r.
Proof.
  intros Hms Hmiss Hc.
  apply create_inv in Hc as [[Hhit _]|(_ & sel & gpt4 & text & H)];
    [congruence|].
  destruct H as (Hsel & _ & H4 & -> & _). rewrite Hms in H4.
  apply choose_model_lookup in Hsel as [k Hk]. rewrite Hms in Hk.
  pose proof (catalog_keyed_by_name k sel Hk) as <-.
  exists sel, gpt4. cbn [Router.model Router.cost Router.savings
                         Router.input_tokens Router.output_tokens].
  split; [exact Hk|]. split; [exact H4|].
  split; [apply calculate_cost_formula|].
  split; [rewrite max_Qmax; rewrite <- (calculate_cost_formula gpt4); reflexivity|].
  apply max_lower_bound.
Qed.

Lemma reachable_cache_priced (self : Router.SmartRouter) :
  Router.reachable encode hash self ->
  forall k e, Router.cache self !! k = Some e -> priced (Router.response e).
Proof.
  induction 1 as [| |self w messages hint r self' Hreach IH Hc]; intros k e Hk.
  - simpl in Hk. rewrite lookup_empty in Hk. discriminate Hk.
  - eapply IHreachable. exact Hk.
  - pose proof Hc as Hc'.
    apply create_inv in Hc' as [[_ ->]|(Hmiss & sel & gpt4 & text & H)];
      [eapply IH; exact Hk|].
    destruct H as (_ & _ & _ & _ & _ & _ & Hcache & _).
    rewrite Hcache in Hk. unfold Router.cache_put in Hk.
    apply lookup_insert_Some in Hk as [[_ <-]|[_ Hk]]; [|eapply IH; exact Hk].
    simpl. eapply computed_response_priced; eauto using reachable_models.
Qed.

End Reachable.

(** C1.  The cost of any model and token counts is
    [(input_tokens/1000)*price_in + (output_tokens/1000)*price_out].  Every
    response returned by [create] on a router built from a fresh one,
    computed or served from the cache, names a catalog model [m]; its cost
    is that formula at the prices of [m], its savings is
    [max(0, baseline - cost)] where the baseline prices the same token
    counts on the catalog's gpt-4, and its savings is not negative. *)
Theorem create_cost_and_savings
  (encode : string -> list Z) (hash : string -> Z)
  (self : Router.SmartRouter) (w : Router.World)
  (messages : list (gmap string string)) (hint : string)
  (r : Router.RouterResponse) (self' : Router.SmartRouter) :
  Router.reachable encode hash self ->
  Router.create encode hash self w messages hint = Ok (r, self') ->
  (forall (m : Selector.Model) (i o : Z),
     Router._calculate_cost m i o
     == inject_Z i / 1000 * Selector.cost_per_1k_input m
        + inject_Z o / 1000 * Selector.cost_per_1k_output m)%Q
  /\ (exists m b : Selector.Model,
        Selector._initialize_models !! Router.model r = Some m
        /\ Selector._initialize_models !! "gpt-4" = Some b
        /\ (Router.cost r
            == Router._calculate_cost m (Router.input_tokens r)
                 (Router.output_tokens r))%Q
        /\ (Router.savings r
            == Qmax 0 (Router._calculate_cost b (Router.input_tokens r)
                         (Router.output_tokens r)
                       - Router.cost r))%Q)
  /\ (0 <= Router.savings r)%Q.
Proof.
  intros Hreach Hc. split; [apply calculate_cost_formula|].
  assert (priced r) as (m & b & Hm & Hb & Hcost & Hsav & Hpos).
  { destruct (Router.cache_get hash self (Router.t_lookup w)
                (Router._extract_query messages)) as [r0|] eqn:Eg.
    - unfold Router.create in Hc. rewrite Eg in Hc. injection Hc as <- <-.
      unfold Router.cache_get in Eg.
      destruct (Router.cache self !! _) as [e|] eqn:Ee; [|discriminate Eg].
      destruct (Qlt_bool _ _); [|discriminate Eg]. injection Eg as <-.
      eapply reachable_cache_priced; eauto.
    - eapply computed_response_priced; eauto using reachable_models. }
  split; [|exact Hpos].
  exists m, b. split; [exact Hm|]. split; [exact Hb|].
  split; [rewrite calculate_cost_formula; exact Hcost|].
  rewrite calculate_cost_formula. exact Hsav.
Qed.

Lemma create_cost_and_savings_witness :
  exists r self',
    Router.create char_encode length_hash demo_router demo_world demo_messages
                  "auto" = Ok (r, self')
    /\ Router.model r = "mistral-7b"
    /\ (0 <= Router.savings r)%Q.
Proof.
  destruct (Router.create char_encode length_hash demo_router demo_world
              demo_messages "auto") as [[r self']|e] eqn:E.
  - exists r, self'. split; [reflexivity|]. split.
    + vm_compute in E. injection E as <- _. reflexivity.
    + exact (proj2 (proj2 (create_cost_and_savings char_encode length_hash
               demo_router demo_world demo_messages "auto" r self'
               (Router.reachable_init char_encode length_hash _ _ _ _ _ _ _ _)
               E))).
  - vm_compute in E. discriminate E.
Defined.

(** ** C5: attribution after a fallback *)

(** C5 (as amended).  When the call to the selected model fails, fallback is
    enabled and [create] returns a response, the content of the response is
    the text of the fallback call to gpt-3.5-turbo on the OpenAI client,
    while the model name, the provider, the cost and the savings of the
    response, and of the tracked record, are those of the model selected
    first. *)
Theorem fallback_keeps_selected_attribution
  (encode : string -> list Z) (hash : string -> Z)
  (self : Router.SmartRouter) (w : Router.World)
  (messages : list (gmap string string)) (hint : string)
  (sel : Selector.Model) (e : exn)
  (r : Router.RouterResponse) (self' : Router.SmartRouter) :
  let query := Router._extract_query messages in
  let c := Analyzer.analyze encode query in
  Router.cache_get hash self (Router.t_lookup w) query = None ->
  Router.choose_model self c hint = Ok sel ->
  Router._call_api self (Selector.provider sel) (Router.remote w) sel messages
  = Raise e ->
  Router.enable_fallback self = true ->
  Router.create encode hash self w messages hint = Ok (r, self') ->
  (exists fallback gpt4 : Selector.Model,
     Router.models self !! "gpt-3.5-turbo" = Some fallback
     /\ Router.models self !! "gpt-4" = Some gpt4
     /\ Router._call_api self Selector.OPENAI (Router.remote_retry w) fallback
          messages = Ok (Router.content r)
     /\ Router.savings r
        = Py.max 0 (Router._calculate_cost gpt4 (Router.input_tokens r)
                      (Router.output_tokens r)
                    - Router.cost r))
  /\ Router.model r = Selector.name sel
  /\ Router.provider r = Selector.provider_value (Selector.provider sel)
  /\ Router.cost r
     = Router._calculate_cost sel (Router.input_tokens r) (Router.output_tokens r)
  /\ last (Tracker.requests (Router.tracker self'))
     = Some (Tracker.mkRequest (Router.t_track w) (Selector.name sel)
               (Selector.provider_value (Selector.provider sel))
               (Router.input_tokens r) (Router.output_tokens r)
               (Router.cost r) (Router.savings r) (Router.latency r)).
Proof.
  intros query c Hmiss Hsel Hfail Hfb Hc.
  apply create_inv in Hc as [[Hhit _]|(_ & sel' & gpt4 & text & H)].
  { fold query in Hhit. congruence. }
  fold query in H. fold c in H.
  destruct H as (Hsel' & Hcall & H4 & Hr & _ & _ & _ & Htr).
  rewrite Hsel in Hsel'. injection Hsel' as <-.
  unfold Router._call_model_api in Hcall. rewrite Hfail, Hfb in Hcall.
  unfold Selector.getitem in Hcall.
  destruct (Router.models self !! "gpt-3.5-turbo") as [fallback|] eqn:E35;
    simpl in Hcall; [|discriminate Hcall].
  rewrite Htr, last_snoc. subst r. simpl.
  split; [|repeat split].
  exists fallback, gpt4. repeat split; assumption || reflexivity.
Qed.

Lemma fallback_keeps_selected_attribution_witness :
  exists r self',
    Router.create char_encode length_hash demo_router outage_world
                  demo_messages "auto" = Ok (r, self')
    /\ Router.model r = "mistral-7b"
    /\ Router.provider r = "mistral".
Proof.
  destruct (Router.create char_encode length_hash demo_router outage_world
              demo_messages "auto") as [[r self']|e] eqn:E.
  - exists r, self'. split; [reflexivity|].
    pose proof (fallback_keeps_selected_attribution char_encode length_hash
                  demo_router outage_world demo_messages "auto"
                  Selector.mistral_7b
                  (ProviderError "503 Service Unavailable") r self'
                  ltac:(vm_compute; reflexivity)
                  ltac:(vm_compute; reflexivity)
                  ltac:(vm_compute; reflexivity)
                  eq_refl E) as (_ & Hm & Hp & _).
    split; [exact Hm|exact Hp].
  - vm_compute in E. discriminate E.
Defined.

(** C5 (counterexample).  The selected mistral-7b fails, the fallback call
    to gpt-3.5-turbo answers, and the response still names mistral-7b and
    its provider, with a cost that is not the one of the returned token
    counts at the prices of gpt-3.5-turbo. *)
Lemma fallback_response_names_selected_model :
  exists r self',
    Router.create char_encode length_hash demo_router outage_world
                  demo_messages "auto" = Ok (r, self')
    /\ Router._call_api demo_router Selector.MISTRAL
         (Router.remote outage_world) Selector.mistral_7b demo_messages
       = Raise (ProviderError "503 Service Unavailable")
    /\ Router.enable_fallback demo_router = true
    /\ Router._call_api demo_router Selector.OPENAI
         (Router.remote_retry outage_world) Selector.gpt_35_turbo demo_messages
       = Ok (Router.content r)
    /\ Router.model r = "mistral-7b"
    /\ Router.model r <> Selector.name Selector.gpt_35_turbo
    /\ Router.provider r = "mistral"
    /\ Router.provider r
       <> Selector.provider_value (Selector.provider Selector.gpt_35_turbo)
    /\ ~ (Router.cost r
          == Router._calculate_cost Selector.gpt_35_turbo
               (Router.input_tokens r) (Router.output_tokens r))%Q.
Proof.
  destruct (Router.create char_encode length_hash demo_router outage_world
              demo_messages "auto") as [[r self']|e] eqn:E;
    vm_compute in E; [|discriminate E].
  injection E as <- _. eexists _, _. split; [reflexivity|].
  split; [vm_compute; reflexivity|]. split; [reflexivity|].
  split; [vm_compute; reflexivity|]. split; [reflexivity|].
  split; [discriminate|]. split; [reflexivity|]. split; [discriminate|].
  vm_compute. discriminate.
Qed.

(** ** C6: the response cache *)

Lemma cache_get_put (hash : string -> Z) (self : Router.SmartRouter)
  (t : Tracker.CostTracker) (q : string) (r : Router.RouterResponse)
  (t_put now : Q) :
  (now - t_put < inject_Z (Router.cache_ttl self))%Q ->
  Router.cache_get hash
    (Router.set_tracker_cache self t (Router.cache_put hash self t_put q r))
    now q = Some r.
Proof.
  intros Hfresh. unfold Router.cache_get, Router.cache_put. simpl.
  rewrite lookup_insert_eq. simpl.
  apply Qlt_bool_true in Hfresh. rewrite Hfresh. reflexivity.
Qed.

Lemma cache_get_miss (hash : string -> Z) (self : Router.SmartRouter)
  (now : Q) (q : string) :
  Router.cache_get hash self now q = None
  <-> Router.cache self !! Router._generate_cache_key hash q = None
      \/ exists e, Router.cache self !! Router._generate_cache_key hash q = Some e
                   /\ (inject_Z (Router.cache_ttl self)
                       <= now - Router.timestamp e)%Q.
Proof.
  unfold Router.cache_get.
  destruct (Router.cache self !! Router._generate_cache_key hash q) as [e|].
  - destruct (Qlt_bool _ _) eqn:E.
    + apply Qlt_bool_true in E. split; [discriminate|].
      intros [H|(e' & [= <-] & H)]; [discriminate H|]. lra.
    + apply Qlt_bool_false in E. split; [|reflexivity].
      intros _. right. exists e. split; [reflexivity|exact E].
  - split; [left|]; reflexivity.
Qed.

Lemma create_hit (encode : string -> list Z) (hash : string -> Z)
  (self : Router.SmartRouter) (w : Router.World)
  (messages : list (gmap string string)) (hint : string)
  (r : Router.RouterResponse) :
  Router.cache_get hash self (Router.t_lookup w) (Router._extract_query messages)
  = Some r ->
  Router.create encode hash self w messages hint = Ok (r, self).
Proof. intros H. unfold Router.create. rewrite H. reflexivity. Qed.

(** C6.  A response stored for a query is returned by a lookup of the same
    query made strictly within the TTL of the store; in [create], the call
    that follows a computing call for the same messages within the TTL
    returns the stored response and leaves the router, and so the stored
    timestamp, as it is.  A lookup is a miss exactly when no entry is stored
    under the key or the entry is at least one TTL old.  Any hit leaves the
    router unchanged. *)
Theorem cache_round_trip
  (encode : string -> list Z) (hash : string -> Z)
  (self : Router.SmartRouter) (w w' : Router.World)
  (messages : list (gmap string string)) (hint hint' : string)
  (r : Router.RouterResponse) (self' : Router.SmartRouter) :
  Router.cache_get hash self (Router.t_lookup w) (Router._extract_query messages)
  = None ->
  Router.create encode hash self w messages hint = Ok (r, self') ->
  (Router.t_lookup w' - Router.t_store w < inject_Z (Router.cache_ttl self))%Q ->
  (forall (s : Router.SmartRouter) (t : Tracker.CostTracker) (q : string)
          (r0 : Router.RouterResponse) (t_put now : Q),
     (now - t_put < inject_Z (Router.cache_ttl s))%Q ->
     Router.cache_get hash
       (Router.set_tracker_cache s t (Router.cache_put hash s t_put q r0)) now q
     = Some r0)
  /\ Router.create encode hash self' w' messages hint' = Ok (r, self')
  /\ (forall (s : Router.SmartRouter) (now : Q) (q : string),
        Router.cache_get hash s now q = None
        <-> Router.cache s !! Router._generate_cache_key hash q = None
            \/ exists e,
                 Router.cache s !! Router._generate_cache_key hash q = Some e
                 /\ (inject_Z (Router.cache_ttl s) <= now - Router.timestamp e)%Q)
  /\ (forall (s : Router.SmartRouter) (w0 : Router.World)
             (messages0 : list (gmap string string)) (hint0 : string)
             (r0 : Router.RouterResponse),
        Router.cache_get hash s (Router.t_lookup w0)
          (Router._extract_query messages0) = Some r0 ->
        Router.create encode hash s w0 messages0 hint0 = Ok (r0, s)).
Proof.
  intros Hmiss Hc Hfresh.
  split; [intros; apply cache_get_put; assumption|].
  split; [|split; [intros; apply cache_get_miss|intros; apply create_hit; assumption]].
  apply create_hit.
  apply create_inv in Hc as [[Hhit _]|(_ & sel & gpt4 & text & H)];
    [congruence|].
  destruct H as (_ & _ & _ & _ & _ & Httl & Hcache & _).
  unfold Router.cache_get. rewrite Hcache. unfold Router.cache_put.
  rewrite lookup_insert_eq. simpl. rewrite Httl.
  apply Qlt_bool_true in Hfresh. rewrite Hfresh. reflexivity.
Qed.

(** A computing call at clock 100..104, then the same messages at clock
    3000, within the TTL of 3600 seconds. *)
Lemma cache_round_trip_witness :
  exists r self',
    Router.create char_encode length_hash demo_router demo_world demo_messages
                  "auto" = Ok (r, self')
    /\ Router.create char_encode length_hash self'
         (Router.mkWorld (Router.remote outage_world)
                         (Router.remote outage_world) 3000 3001 3002 3003 3004)
         demo_messages "auto" = Ok (r, self').
Proof.
  destruct (Router.create char_encode length_hash demo_router demo_world
              demo_messages "auto") as [[r self']|e] eqn:E.
  - exists r, self'. split; [reflexivity|].
    refine (proj1 (proj2 (cache_round_trip char_encode length_hash demo_router
              demo_world _ demo_messages "auto" "auto" r self' _ E _))).
    + vm_compute. reflexivity.
    + vm_compute. reflexivity.
  - vm_compute in E. discriminate E.
Defined.

(** ** C7: analytics *)

Lemma foldl_Qplus (a : Q) (xs : list Q) : (foldl Qplus a xs == a + Qsum xs)%Q.
Proof.
  revert a. induction xs as [|x xs IH]; intros a; simpl.
  - lra.
  - rewrite IH. lra.
Qed.

Lemma sum_Qsum (xs : list Q) : (Py.sum xs == Qsum xs)%Q.
Proof. unfold Py.sum. rewrite foldl_Qplus. lra. Qed.

Lemma round_half_even_comp (x y : Q) :
  (x == y)%Q -> Py.round_half_even x = Py.round_half_even y.
Proof.
  intros H. unfold Py.round_half_even.
  rewrite (Qfloor_comp x y H).
  assert ((x - inject_Z (Qfloor y) ?= 1 # 2) = (y - inject_Z (Qfloor y) ?= 1 # 2))%Q
    as -> by (apply Qcompare_comp; [rewrite H|]; reflexivity).
  reflexivity.
Qed.

Lemma round_comp (x y : Q) (n : nat) : (x == y)%Q -> Py.round x n = Py.round y n.
Proof.
  intros H. unfold Py.round.
  rewrite (round_half_even_comp (x * _) (y * inject_Z (10 ^ Z.of_nat n)));
    [reflexivity|]. rewrite H. reflexivity.
Qed.

(** Rounding moves a number by at most one half. *)
Lemma round_half_even_close (x : Q) :
  (- (1 # 2) <= inject_Z (Py.round_half_even x) - x <= 1 # 2)%Q.
Proof.
  unfold Py.round_half_even.
  pose proof (Qfloor_le x) as Hlo. pose proof (Qlt_floor x) as Hhi.
  rewrite inject_Z_plus in Hhi. change (inject_Z 1) with 1%Q in Hhi.
  destruct (x - inject_Z (Qfloor x) ?= 1 # 2)%Q eqn:E.
  - apply Qeq_alt in E.
    destruct (Z.even (Qfloor x)); [|rewrite inject_Z_plus; change (inject_Z 1) with 1%Q];
      split; lra.
  - apply Qlt_alt in E. split; lra.
  - apply Qgt_alt in E. rewrite inject_Z_plus. change (inject_Z 1) with 1%Q.
    split; lra.
Qed.

(** [round(x, 4)] stays within half a unit of the fourth decimal. *)
Lemma round_4_close (x : Q) :
  (- (1 # 20000) <= Py.round x 4 - x <= 1 # 20000)%Q.
Proof.
  unfold Py.round. change (inject_Z (10 ^ Z.of_nat 4)) with 10000%Q.
  pose proof (round_half_even_close (x * 10000)) as [Hlo Hhi].
  set (y := inject_Z (Py.round_half_even (x * 10000))) in *.
  unfold Qdiv. change (/ 10000)%Q with (1 # 10000)%Q. split; lra.
Qed.

Lemma record_requests (t : Tracker.CostTracker) (r : Tracker.request_data) :
  Tracker.requests (record t r) = Tracker.requests t ++ [r].
Proof. destruct r. reflexivity. Qed.

(** A request tracked without a timestamp is recorded at the clock reading. *)
Lemma track_request_now (t : Tracker.CostTracker) (now : Q)
  (model provider : string) (input_tokens output_tokens : Z)
  (cost savings latency : Q) :
  Tracker.track_request t now model provider input_tokens output_tokens
                        cost savings latency None
  = record t (Tracker.mkRequest now model provider input_tokens output_tokens
                                cost savings latency).
Proof. reflexivity. Qed.

(** The log of a tracker fed with a list of requests is that list. *)
Lemma record_all_requests (t : Tracker.CostTracker) (rs : list Tracker.request_data) :
  Tracker.requests (foldl record t rs) = Tracker.requests t ++ rs.
Proof.
  revert t. induction rs as [|r rs IH]; intros t; simpl.
  - rewrite app_nil_r. reflexivity.
  - rewrite IH, record_requests, <- app_assoc. reflexivity.
Qed.

(** C7 (as amended).  For every sequence of tracked requests and every
    window, [total_requests] is the number of records whose timestamp lies
    after [now - window]; [total_cost] and [total_savings] are the sums of
    their costs and savings rounded to four decimal places, hence within
    0.00005 of the exact sums. *)
Theorem analytics_totals (rs : list Tracker.request_data) (now : Q) (days : Z) :
  let a := Tracker.get_analytics (foldl record Tracker.__init__ rs) now days in
  let window := List.filter (in_window now days) rs in
  Tracker.a_total_requests a = Z.of_nat (length window)
  /\ (Tracker.a_total_cost a == Py.round (Qsum (map Tracker.cost window)) 4)%Q
  /\ (Tracker.a_total_savings a
      == Py.round (Qsum (map Tracker.savings window)) 4)%Q
  /\ (- (1 # 20000) <= Tracker.a_total_cost a - Qsum (map Tracker.cost window)
      <= 1 # 20000)%Q
  /\ (- (1 # 20000)
      <= Tracker.a_total_savings a - Qsum (map Tracker.savings window)
      <= 1 # 20000)%Q.
Proof.
  intros a window.
  assert (Tracker.a_total_requests a = Z.of_nat (length window)
          /\ (Tracker.a_total_cost a
              == Py.round (Qsum (map Tracker.cost window)) 4)%Q
          /\ (Tracker.a_total_savings a
              == Py.round (Qsum (map Tracker.savings window)) 4)%Q)
    as (Hn & Hc & Hs).
  { subst a. unfold Tracker.get_analytics, Tracker.recent.
    rewrite record_all_requests. simpl.
    change (List.filter _ rs) with window.
    destruct window as [|r0 window0] eqn:Ew.
    - simpl. split; [reflexivity|]. split; vm_compute; reflexivity.
    - cbn [Tracker.a_total_requests Tracker.a_total_cost Tracker.a_total_savings].
      split; [reflexivity|].
      split; rewrite (round_comp _ _ 4 (sum_Qsum _)); reflexivity. }
  split; [exact Hn|]. split; [exact Hc|]. split; [exact Hs|].
  split; [rewrite Hc|rewrite Hs]; apply round_4_close.
Qed.

(** C7 (counterexample).  One tracked request inside the window, with the
    cost and savings of a short mistral-7b call: the reported totals are
    0 and 0.0013, not 0.0000074 and 0.0013126. *)
Lemma analytics_totals_are_rounded :
  let a := Tracker.get_analytics (foldl record Tracker.__init__ [small_request])
             2000 1 in
  List.filter (in_window 2000 1) [small_request] = [small_request]
  /\ Tracker.a_total_requests a = 1%Z
  /\ (Tracker.a_total_cost a == 0)%Q
  /\ ~ (Tracker.a_total_cost a == Tracker.cost small_request)%Q
  /\ (Tracker.a_total_savings a == 0.0013)%Q
  /\ ~ (Tracker.a_total_savings a == Tracker.savings small_request)%Q.
Proof.
  simpl. split; [vm_compute; reflexivity|]. split; [vm_compute; reflexivity|].
  split; [vm_compute; reflexivity|]. split; [vm_compute; discriminate|].
  split; [vm_compute; reflexivity|]. vm_compute. discriminate.
Qed.

(** The demo call tracks exactly [small_request]. *)
Example demo_call_tracks_small_request :
  exists r self',
    Router.create char_encode length_hash demo_router demo_world demo_messages
                  "auto" = Ok (r, self')
    /\ Forall2 (fun a b =>
                  Tracker.timestamp a = Tracker.timestamp b
                  /\ Tracker.model a = Tracker.model b
                  /\ Tracker.input_tokens a = Tracker.input_tokens b
                  /\ Tracker.output_tokens a = Tracker.output_tokens b
                  /\ (Tracker.cost a == Tracker.cost b)%Q
                  /\ (Tracker.savings a == Tracker.savings b)%Q)
               (Tracker.requests (Router.tracker self')) [small_request].
Proof.
  eexists _, _. split; [vm_compute; reflexivity|].
  constructor; [|constructor].
  repeat split; vm_compute; reflexivity.
Qed.

(** The scenario of the test suite: costs 0.002 and 0.001, savings 0.008 and
    0.012. *)
Example analytics_two_requests :
  let a := Tracker.get_analytics
             (foldl record Tracker.__init__
                [Tracker.mkRequest 1000 "gpt-3.5-turbo" "openai" 50 30
                   0.002 0.008 1.2;
                 Tracker.mkRequest 1001 "claude-3-haiku" "anthropic" 40 20
                   0.001 0.012 0.8])
             2000 1 in
  Tracker.a_total_requests a = 2%Z
  /\ (Tracker.a_total_cost a == 0.003)%Q
  /\ (Tracker.a_total_savings a == 0.020)%Q.
Proof.
  simpl. split; [vm_compute; reflexivity|]. split; vm_compute; reflexivity.
Qed.

(** ** C10: the analysed query *)






(** With no user message the empty query is analysed as a general task and
    the call completes. *)
Example create_without_user_message :
  exists r self',
    Router.create char_encode length_hash demo_router demo_world
      [message "system" "You are a helpful assistant."] "auto" = Ok (r, self')
    /\ Router.input_tokens r = 0%Z
    /\ Router.model r = "mistral-7b".
Proof.
  eexists _, _. split; [vm_compute; reflexivity|]. split; reflexivity.
Qed.

(** * Further properties *)

(** ** The analyzer: capabilities, output estimate, ranges *)

Lemma elem_of_by_bool (x : string) (l : list string) (b : bool) :
  bool_decide (x ∈ l) = b -> (x ∈ l <-> b = true).
Proof. intros <-. symmetry. apply bool_decide_eq_true. Qed.



(** The capability list as a function of the five tests. *)
Lemma capabilities_by_tests (b1 b2 b3 b4 b5 : bool) :
  let caps :=
    (if b1 then ["code_generation"] else []) ++
    (if b2 then ["mathematical_reasoning"] else []) ++
    (if b3 then ["complex_reasoning"] else []) ++
    (if b4 then ["long_context"] else []) ++
    (if b5 then ["structured_output"] else []) in
  ("code_generation" ∈ caps <-> b1 = true)
  /\ ("mathematical_reasoning" ∈ caps <-> b2 = true)
  /\ ("complex_reasoning" ∈ caps <-> b3 = true)
  /\ ("long_context" ∈ caps <-> b4 = true)
  /\ ("structured_output" ∈ caps <-> b5 = true)
  /\ NoDup caps
  /\ (forall x, x ∈ caps -> x ∈ capability_names).
Proof.
  destruct b1, b2, b3, b4, b5; cbv zeta; simpl;
    (repeat (split; [apply elem_of_by_bool; vm_compute; reflexivity|]));
    (split; [refine (bool_decide_unpack _ _); vm_compute; exact I|]);
    apply Forall_forall; refine (bool_decide_unpack _ _); vm_compute; exact I.
Qed.


Lemma multipliers_bounds (task : string) :
  (3 # 10 <= Analyzer.get Analyzer.multipliers task 1.0 <= 3)%Q.
Proof.
  unfold Analyzer.get.
  destruct (Analyzer.multipliers !! task) as [v|] eqn:E; simpl.
  - revert task v E.
    change (map_Forall (fun (_ : string) v => (3 # 10 <= v <= 3)%Q)
                       Analyzer.multipliers).
    unfold Analyzer.multipliers.
    repeat (apply map_Forall_insert_2; [split; discriminate|]).
    apply map_Forall_empty.
  - split; discriminate.
Qed.

Lemma int_of_nonneg (x : Q) : (0 <= x)%Q -> Analyzer.int x = Qfloor x.
Proof.
  intros H. unfold Analyzer.int. apply Qle_bool_iff in H. rewrite H. reflexivity.
Qed.

Lemma int_of_Z (z : Z) : Analyzer.int (inject_Z z * 1.0) = z.
Proof.
  assert (inject_Z z * 1.0 == inject_Z z)%Q as H by ring.
  unfold Analyzer.int.
  destruct (Qle_bool 0 (inject_Z z * 1.0)).
  - rewrite (Qfloor_comp _ _ H). apply Qfloor_Z.
  - rewrite (Qceiling_comp _ _ H). apply Qceiling_Z.
Qed.

Lemma estimate_output_tokens_mono (task : string) (n n' : Z) :
  (0 <= n <= n')%Z ->
  (0 <= Analyzer._estimate_output_tokens task n
   <= Analyzer._estimate_output_tokens task n')%Z
  /\ (Analyzer._estimate_output_tokens task n' <= 3 * n')%Z.
Proof.
  intros [Hn Hnn']. unfold Analyzer._estimate_output_tokens.
  pose proof (multipliers_bounds task) as [Hlo Hhi].
  set (m := Analyzer.get Analyzer.multipliers task 1.0) in *.
  assert (0 <= inject_Z n)%Q as Hq
    by (change 0%Q with (inject_Z 0); rewrite <- Zle_Qle; exact Hn).
  assert (inject_Z n <= inject_Z n')%Q as Hq' by (rewrite <- Zle_Qle; exact Hnn').
  assert (0 <= inject_Z n * m)%Q as H0 by (apply Qmult_le_0_compat; lra).
  assert (inject_Z n * m <= inject_Z n' * m)%Q as Hmono
    by (apply Qmult_le_compat_r; lra).
  assert (inject_Z n' * m <= inject_Z (3 * n'))%Q as H3.
  { rewrite inject_Z_mult. change (inject_Z 3) with 3%Q. nra. }
  rewrite !int_of_nonneg by lra.
  split; [split|].
  - rewrite <- (Qfloor_Z 0). apply Qfloor_resp_le. exact H0.
  - apply Qfloor_resp_le. exact Hmono.
  - rewrite <- (Qfloor_Z (3 * n')). apply Qfloor_resp_le. exact H3.
Qed.

(** X2.  For non-negative token counts the output estimate is never
    negative, grows with the input and stays within three times the input;
    a task type missing from the multiplier table is estimated at the input
    count itself. *)
Theorem estimate_output_tokens_bounds (task : string) (n n' : Z) :
  (0 <= n <= n')%Z ->
  (0 <= Analyzer._estimate_output_tokens task n
   <= Analyzer._estimate_output_tokens task n')%Z
  /\ (Analyzer._estimate_output_tokens task n' <= 3 * n')%Z
  /\ (Analyzer.multipliers !! task = None ->
      Analyzer._estimate_output_tokens task n = n).
Proof.
  intros Hn. destruct (estimate_output_tokens_mono task n n' Hn) as [H1 H2].
  split; [exact H1|]. split; [exact H2|].
  intros Hnone. unfold Analyzer._estimate_output_tokens, Analyzer.get.
  rewrite Hnone. simpl. apply int_of_Z.
Qed.

Lemma estimate_output_tokens_bounds_witness :
  (0 <= Analyzer._estimate_output_tokens "code" 10
   <= Analyzer._estimate_output_tokens "code" 11)%Z
  /\ (Analyzer._estimate_output_tokens "code" 11 <= 3 * 11)%Z.
Proof.
  destruct (estimate_output_tokens_bounds "code" 10 11 ltac:(lia)) as (H1 & H2 & _).
  split; [exact H1|exact H2].
Defined.

Example estimate_output_tokens_values :
  Analyzer._estimate_output_tokens "code" 10 = 25%Z
  /\ Analyzer._estimate_output_tokens "summarization" 7 = 2%Z
  /\ Analyzer._estimate_output_tokens "translation" 7 = 7%Z.
Proof. repeat split; vm_compute; reflexivity. Qed.

Lemma detect_in_range (table : list (string * list Analyzer.pattern)) (s : string) :
  Analyzer.detect_in table s ∈ "general" :: map fst table.
Proof.
  induction table as [|[t ps] table IH]; simpl.
  - left.
  - destruct (Analyzer.any_pattern ps s).
    + right. left.
    + apply elem_of_cons in IH as [->|IH]; [left|right; right; exact IH].
Qed.

Lemma detect_task_type_range (query : string) :
  Analyzer._detect_task_type query ∈ task_names.
Proof.
  pose proof (detect_in_range Analyzer.task_patterns (Analyzer.lower query)) as H.
  unfold Analyzer._detect_task_type.
  set (t := Analyzer.detect_in _ _) in *.
  apply elem_of_cons in H as [->|H].
  - refine (bool_decide_unpack _ _). vm_compute. exact I.
  - revert t H.
    apply (proj1 (Forall_forall (fun t => t ∈ task_names)
                                (map fst Analyzer.task_patterns))).
    refine (bool_decide_unpack _ _). vm_compute. exact I.
Qed.

Lemma tables_cover_task_names (t : string) :
  t ∈ task_names ->
  is_Some (Analyzer.task_scores !! t) /\ is_Some (Analyzer.multipliers !! t).
Proof.
  revert t. apply Forall_forall. unfold task_names.
  repeat (apply Forall_cons; split;
          [split; eexists; vm_compute; reflexivity|]).
  apply Forall_nil. exact I.
Qed.

(** The score around its task component: the capability component is added
    in full, the token and vocabulary components add between 0 and 0.4. *)
Lemma calculate_complexity_score_by_task
  (tokens : Z) (vocab : Q) (task : string) (caps : list string) :
  (0 <= tokens)%Z -> (0 <= vocab <= 1)%Q ->
  let base :=
    (Analyzer.get Analyzer.task_scores task 0.5 * 0.4
     + Qmin (inject_Z (Z.of_nat (length caps)) * 0.1) 0.2)%Q in
  (base <= Analyzer._calculate_complexity_score tokens vocab task caps
   <= base + 0.4)%Q.
Proof.
  intros Ht [Hv0 Hv1] base. subst base.
  unfold Analyzer._calculate_complexity_score.
  set (ts := Analyzer.get Analyzer.task_scores task 0.5).
  set (y := Qmin (inject_Z (Z.of_nat (length caps)) * 0.1) 0.2).
  assert (0 <= inject_Z tokens / 500)%Q as Htok.
  { apply Qle_shift_div_l; [reflexivity|]. rewrite Qmult_0_l.
    change 0%Q with (inject_Z 0). rewrite <- Zle_Qle. exact Ht. }
  set (a := (inject_Z tokens / 500)%Q) in *.
  pose proof (Q.le_min_r a 1.0) as Ha1.
  assert (0 <= Qmin a 1.0)%Q as Ha0 by (apply Q.min_glb; [exact Htok|discriminate]).
  set (x := Qmin a 1.0) in *.
  split; lra.
Qed.

Lemma vocabulary_ratio_bounds (tokens : list Z) :
  (0 <= (if (0 <? length tokens)%nat
         then inject_Z (Z.of_nat (size (list_to_set tokens : gset Z)))
              / inject_Z (Z.of_nat (length tokens))
         else 0) <= 1)%Q.
Proof.
  destruct (0 <? length tokens)%nat eqn:E.
  - apply Nat.ltb_lt in E. apply ratio_bounds; [|exact E].
    apply size_list_to_set_le.
  - split; discriminate.
Qed.

(** X3.  Whatever the tokenizer and the query, [analyze] returns a task type
    that is a key of both tables (their defaults are never used), a
    vocabulary ratio between 0 and 1, an output estimate between 0 and three
    times the token count, only known capability tags, and a score that is
    the task component plus the capability component plus at most 0.4, so
    between 0.04 and 0.96. *)
Theorem analyze_ranges (encode : string -> list Z) (query : string) :
  let c := Analyzer.analyze encode query in
  let base :=
    (Analyzer.get Analyzer.task_scores (task_type c) 0.5 * 0.4
     + Qmin (inject_Z (Z.of_nat (length (required_capabilities c))) * 0.1) 0.2)%Q in
  task_type c ∈ task_names
  /\ is_Some (Analyzer.task_scores !! task_type c)
  /\ is_Some (Analyzer.multipliers !! task_type c)
  /\ (0 <= vocabulary_complexity c <= 1)%Q
  /\ (0 <= estimated_output_tokens c <= 3 * token_count c)%Z
  /\ (forall x, x ∈ required_capabilities c -> x ∈ capability_names)
  /\ (base <= complexity_score c <= base + 0.4)%Q
  /\ (0.04 <= complexity_score c <= 0.96)%Q.
Proof.
  intros c base.
  pose proof (detect_task_type_range query) as Hrange.
  pose proof (tables_cover_task_names _ Hrange) as [Hs Hm].
  pose proof (vocabulary_ratio_bounds (encode query)) as Hv.
  assert (0 <= Z.of_nat (length (encode query)))%Z as Hn by lia.
  pose proof (calculate_complexity_score_by_task
                (Z.of_nat (length (encode query)))
                (vocabulary_complexity c) (Analyzer._detect_task_type query)
                (required_capabilities c) Hn Hv) as Hscore.
  split; [exact Hrange|]. split; [exact Hs|]. split; [exact Hm|].
  split; [exact Hv|].
  split.
  { destruct (estimate_output_tokens_mono (Analyzer._detect_task_type query)
                (Z.of_nat (length (encode query)))
                (Z.of_nat (length (encode query))) ltac:(lia)) as [[H1 _] H2].
    split; [exact H1|exact H2]. }
  split.
  { intros x Hx.
    destruct (capabilities_by_tests
              (String.eqb (task_type c) "code")
              (String.eqb (task_type c) "math" || Analyzer.numeric_operator query)
              (String.eqb (task_type c) "analysis"
               || String.eqb (task_type c) "reasoning")
              (1000 <? String.length query)%nat
              (Analyzer.re_search ["json"; "xml"; "yaml"; "csv"]
                 (Analyzer.lower query)))
      as (_ & _ & _ & _ & _ & _ & Hsub).
    apply Hsub. exact Hx. }
  split; [exact Hscore|].
  cbv zeta in Hscore. change (Analyzer._calculate_complexity_score _ _ _ _)
    with (complexity_score c) in Hscore.
  pose proof (task_scores_bounds (Analyzer._detect_task_type query)) as [Hlo Hhi].
  change (Analyzer._detect_task_type query) with (task_type c) in *.
  set (ts := Analyzer.get Analyzer.task_scores (task_type c) 0.5) in *.
  assert (0 <= inject_Z (Z.of_nat (length (required_capabilities c))) * 0.1)%Q
    as Hcap.
  { apply Qmult_le_0_compat; [|discriminate].
    change 0%Q with (inject_Z 0). rewrite <- Zle_Qle. lia. }
  set (b := (inject_Z (Z.of_nat (length (required_capabilities c))) * 0.1)%Q) in *.
  pose proof (Q.le_min_r b 0.2) as Hb1.
  assert (0 <= Qmin b 0.2)%Q as Hb0 by (apply Q.min_glb; [exact Hcap|discriminate]).
  set (y := Qmin b 0.2) in *.
  split; lra.
Qed.



(** ** The strategies on analysed queries *)

(** The thresholds of the cost-optimized ladder. *)
Lemma cost_optimized_cases (c : QueryComplexity) :
  let s := complexity_score c in
  exists m,
    Selector._select_cost_optimized Selector._initialize_models c = Ok m
    /\ ((s < 0.3 /\ m = Selector.mistral_7b)
        \/ (0.3 <= s < 0.5 /\ m = Selector.claude_3_haiku)
        \/ (0.5 <= s < 0.7 /\ m = Selector.gpt_35_turbo)
        \/ (0.7 <= s < 0.85 /\ m = Selector.gemini_pro)
        \/ (0.85 <= s /\ m = Selector.gpt_4))%Q.
Proof.
  intros s. subst s. unfold Selector._select_cost_optimized.
  destruct (Qlt_bool (complexity_score c) 0.3) eqn:E1;
    [apply Qlt_bool_true in E1|apply Qlt_bool_false in E1].
  { eexists. split; [vm_compute; reflexivity|]. left. auto. }
  destruct (Qlt_bool (complexity_score c) 0.5) eqn:E2;
    [apply Qlt_bool_true in E2|apply Qlt_bool_false in E2].
  { eexists. split; [vm_compute; reflexivity|]. right. left. auto. }
  destruct (Qlt_bool (complexity_score c) 0.7) eqn:E3;
    [apply Qlt_bool_true in E3|apply Qlt_bool_false in E3].
  { eexists. split; [vm_compute; reflexivity|]. right. right. left. auto. }
  destruct (Qlt_bool (complexity_score c) 0.85) eqn:E4;
    [apply Qlt_bool_true in E4|apply Qlt_bool_false in E4].
  { eexists. split; [vm_compute; reflexivity|]. right. right. right. left. auto. }
  eexists. split; [vm_compute; reflexivity|]. right. right. right. right. auto.
Qed.

(** One emitted capability is worth a full 0.1 of score. *)
Lemma capability_component_one (caps : list string) (x : string) :
  x ∈ caps ->
  (0.1 <= Qmin (inject_Z (Z.of_nat (length caps)) * 0.1) 0.2)%Q.
Proof.
  intros Hx. apply Q.min_glb; [|discriminate].
  assert (1 <= Z.of_nat (length caps))%Z as H
    by (destruct caps; [inversion Hx|simpl; lia]).
  rewrite Zle_Qle in H. change (inject_Z 1) with 1%Q in H. lra.
Qed.

Lemma capability_component_max (caps : list string) :
  (0 <= Qmin (inject_Z (Z.of_nat (length caps)) * 0.1) 0.2 <= 0.2)%Q.
Proof.
  split; [|apply Q.le_min_r].
  apply Q.min_glb; [|discriminate].
  assert (0 <= Z.of_nat (length caps))%Z as H by lia.
  rewrite Zle_Qle in H. change (inject_Z 0) with 0%Q in H. lra.
Qed.

(** The score of an analysed query around its task component. *)
Lemma analyze_score_by_task (encode : string -> list Z) (query : string) :
  let c := Analyzer.analyze encode query in
  let base :=
    (Analyzer.get Analyzer.task_scores (Analyzer._detect_task_type query) 0.5 * 0.4
     + Qmin (inject_Z (Z.of_nat (length (required_capabilities c))) * 0.1) 0.2)%Q in
  (base <= complexity_score c <= base + 0.4)%Q.
Proof.
  intros c base.
  apply (calculate_complexity_score_by_task
           (Z.of_nat (length (encode query))) (vocabulary_complexity c)
           (Analyzer._detect_task_type query) (required_capabilities c));
    [lia|apply vocabulary_ratio_bounds].
Qed.

(** Tasks that always come with a capability. *)
Lemma demanding_task_has_capability (encode : string -> list Z) (query : string) :
  Analyzer._detect_task_type query ∈ ["code"; "math"; "analysis"; "reasoning"] ->
  exists x, x ∈ required_capabilities (Analyzer.analyze encode query).
Proof.
  intros Ht. unfold Analyzer.analyze. simpl.
  unfold Analyzer._detect_required_capabilities.
  revert Ht. generalize (Analyzer._detect_task_type query). intros task Ht.
  destruct (capabilities_by_tests
              (String.eqb task "code")
              (String.eqb task "math" || Analyzer.numeric_operator query)
              (String.eqb task "analysis" || String.eqb task "reasoning")
              (1000 <? String.length query)%nat
              (Analyzer.re_search ["json"; "xml"; "yaml"; "csv"]
                 (Analyzer.lower query)))
    as (H1 & H2 & H3 & _).
  cbv zeta in H1, H2, H3.
  apply elem_of_cons in Ht as [Ht|Ht];
    [exists "code_generation"; apply H1; rewrite Ht; reflexivity|].
  apply elem_of_cons in Ht as [Ht|Ht];
    [exists "mathematical_reasoning"; apply H2; rewrite Ht; reflexivity|].
  apply elem_of_cons in Ht as [Ht|Ht];
    [exists "complex_reasoning"; apply H3; rewrite Ht; reflexivity|].
  apply list_elem_of_singleton in Ht.
  exists "complex_reasoning". apply H3. rewrite Ht. reflexivity.
Qed.

Lemma task_score_values :
  Analyzer.get Analyzer.task_scores "simple_qa" 0.5 = 0.1%Q
  /\ Analyzer.get Analyzer.task_scores "code" 0.5 = 0.8%Q
  /\ Analyzer.get Analyzer.task_scores "math" 0.5 = 0.8%Q
  /\ Analyzer.get Analyzer.task_scores "analysis" 0.5 = 0.7%Q
  /\ Analyzer.get Analyzer.task_scores "reasoning" 0.5 = 0.9%Q.
Proof. repeat split; vm_compute; reflexivity. Qed.

(** X5.  Under cost_optimized and without rules, a query detected as
    simple_qa is served by one of the three lowest tiers (mistral-7b,
    claude-3-haiku, gpt-3.5-turbo), whatever its length and vocabulary; a
    query detected as code, math, analysis or reasoning is never served by
    the lowest tier, mistral-7b. *)
Theorem analyzed_cost_optimized_tiers (encode : string -> list Z) (query : string) :
  exists m,
    Selector.select_model Selector._initialize_models
      (Analyzer.analyze encode query) "cost_optimized" [] = Ok m
    /\ (Analyzer._detect_task_type query = "simple_qa" ->
        m ∈ [Selector.mistral_7b; Selector.claude_3_haiku; Selector.gpt_35_turbo])
    /\ (Analyzer._detect_task_type query ∈ ["code"; "math"; "analysis"; "reasoning"] ->
        m ∈ [Selector.claude_3_haiku; Selector.gpt_35_turbo; Selector.gemini_pro;
             Selector.gpt_4]).
Proof.
  destruct (cost_optimized_cases (Analyzer.analyze encode query))
    as (m & Hsel & Hcases).
  exists m. split; [exact Hsel|].
  pose proof (analyze_score_by_task encode query) as [Hlo Hhi].
  pose proof (capability_component_max
                (required_capabilities (Analyzer.analyze encode query)))
    as [Hy0 Hy1].
  destruct task_score_values as (V1 & V2 & V3 & V4 & V5).
  cbv zeta in Hcases.
  split.
  - intros Ht. rewrite Ht, V1 in Hhi.
    set (y := Qmin _ _) in *. set (s := complexity_score _) in *.
    destruct Hcases as [[_ ->]|[[_ ->]|[[_ ->]|[[H _]|[H _]]]]];
      [left|right; left|right; right; left|exfalso; lra|exfalso; lra].
  - intros Ht.
    destruct (demanding_task_has_capability encode query Ht) as [x Hx].
    pose proof (capability_component_one _ x Hx) as Hy.
    assert (0.7 <= Analyzer.get Analyzer.task_scores
                     (Analyzer._detect_task_type query) 0.5)%Q as Hts.
    { repeat (apply elem_of_cons in Ht as [->|Ht];
              [rewrite ?V2, ?V3, ?V4, ?V5; discriminate|]).
      inversion Ht. }
    set (ts := Analyzer.get _ _ _) in *.
    set (y := Qmin _ _) in *. set (s := complexity_score _) in *.
    destruct Hcases as [[H _]|[[_ ->]|[[_ ->]|[[_ ->]|[_ ->]]]]];
      [exfalso; lra|left|right; left|right; right; left|right; right; right; left].
Qed.

Lemma analyzed_cost_optimized_tiers_witness :
  exists m,
    Selector.select_model Selector._initialize_models
      (Analyzer.analyze char_encode "What is the capital of France?")
      "cost_optimized" [] = Ok m
    /\ m ∈ [Selector.mistral_7b; Selector.claude_3_haiku; Selector.gpt_35_turbo].
Proof.
  destruct (analyzed_cost_optimized_tiers char_encode
              "What is the capital of France?") as (m & Hsel & Hsimple & _).
  exists m. split; [exact Hsel|]. apply Hsimple. vm_compute. reflexivity.
Defined.

(** X6.  Without rules, a query detected as code is served by gpt-4 or
    gpt-3.5-turbo under balanced, also when it is longer than 1000
    characters or holds arithmetic (the code branch comes first), and by
    gemini-pro or gpt-4 under quality_first. *)
Theorem analyzed_code_query_models (encode : string -> list Z) (query : string) :
  Analyzer._detect_task_type query = "code" ->
  Selector.select_model Selector._initialize_models
    (Analyzer.analyze encode query) "balanced" []
  ∈ [Ok Selector.gpt_4; Ok Selector.gpt_35_turbo]
  /\ Selector.select_model Selector._initialize_models
       (Analyzer.analyze encode query) "quality_first" []
     ∈ [Ok Selector.gemini_pro; Ok Selector.gpt_4].
Proof.
  intros Ht. split.
  - change (Selector._select_balanced Selector._initialize_models
              (Analyzer.analyze encode query)
            ∈ [Ok Selector.gpt_4; Ok Selector.gpt_35_turbo]).
    unfold Selector._select_balanced.
    assert ("code_generation"
            ∈ required_capabilities (Analyzer.analyze encode query)) as Hcap.
    { unfold Analyzer.analyze. simpl.
      unfold Analyzer._detect_required_capabilities. rewrite Ht. simpl. left. }
    rewrite (bool_decide_eq_true_2 _ Hcap).
    destruct (Qlt_bool 0.7 _); [left|right; left].
  - change (Selector._select_quality_first Selector._initialize_models
              (Analyzer.analyze encode query)
            ∈ [Ok Selector.gemini_pro; Ok Selector.gpt_4]).
    pose proof (analyze_score_by_task encode query) as [Hlo _].
    assert (Analyzer._detect_task_type query ∈ ["code"; "math"; "analysis"; "reasoning"])
      as Hin by (rewrite Ht; left).
    destruct (demanding_task_has_capability encode query Hin) as [x Hx].
    pose proof (capability_component_one _ x Hx) as Hy.
    rewrite Ht in Hlo. destruct task_score_values as (_ & V2 & _).
    rewrite V2 in Hlo.
    unfold Selector._select_quality_first.
    set (y := Qmin _ _) in *. set (s := complexity_score _) in *.
    assert (Qlt_bool s 0.2 = false) as -> by (apply Qlt_bool_false; lra).
    destruct (Qlt_bool s 0.6); [left|right; left].
Qed.

Lemma analyzed_code_query_models_witness :
  Selector.select_model Selector._initialize_models
    (Analyzer.analyze char_encode "Write a Python function to implement quicksort")
    "balanced" []
  ∈ [Ok Selector.gpt_4; Ok Selector.gpt_35_turbo].
Proof.
  apply (analyzed_code_query_models char_encode
           "Write a Python function to implement quicksort").
  vm_compute. reflexivity.
Defined.

(** ** The selector *)

(** Membership in an explicit list, by position. *)
Ltac in_list := first [ left | right; in_list ].

(** X7.  Selection by strategy over the catalog, whatever the complexity and
    the strategy name, yields one of mistral-7b, claude-3-haiku,
    gpt-3.5-turbo, gemini-pro and gpt-4: the catalog entries gpt-4o-mini and
    claude-3-opus are reached only through a rule or an explicit model
    name. *)
Theorem strategy_selection_range (c : QueryComplexity) (strategy : string) :
  exists m,
    Selector.select_model Selector._initialize_models c strategy [] = Ok m
    /\ m ∈ [Selector.mistral_7b; Selector.claude_3_haiku; Selector.gpt_35_turbo;
            Selector.gemini_pro; Selector.gpt_4]
    /\ Selector.name m <> "gpt-4o-mini"
    /\ Selector.name m <> "claude-3-opus".
Proof.
  change (Selector.select_model Selector._initialize_models c strategy [])
    with (Selector.select_by_strategy Selector._initialize_models c strategy).
  unfold Selector.select_by_strategy, Selector._select_cost_optimized,
    Selector._select_quality_first, Selector._select_balanced.
  case_ifs; eexists; (split; [vm_compute; reflexivity|]);
    (split; [in_list|]); split; discriminate.
Qed.

(** The thresholds of the quality-first ladder. *)
Lemma quality_first_cases (c : QueryComplexity) :
  let s := complexity_score c in
  exists m,
    Selector._select_quality_first Selector._initialize_models c = Ok m
    /\ ((s < 0.2 /\ m = Selector.gpt_35_turbo)
        \/ (0.2 <= s < 0.6 /\ m = Selector.gemini_pro)
        \/ (0.6 <= s /\ m = Selector.gpt_4))%Q.
Proof.
  intros s. subst s. unfold Selector._select_quality_first.
  destruct (Qlt_bool (complexity_score c) 0.2) eqn:E1;
    [apply Qlt_bool_true in E1|apply Qlt_bool_false in E1].
  { eexists. split; [vm_compute; reflexivity|]. left. auto. }
  destruct (Qlt_bool (complexity_score c) 0.6) eqn:E2;
    [apply Qlt_bool_true in E2|apply Qlt_bool_false in E2].
  { eexists. split; [vm_compute; reflexivity|]. right. left. auto. }
  eexists. split; [vm_compute; reflexivity|]. right. right. auto.
Qed.

(** X8.  The quality-first ladder is monotonic in quality: of two
    complexity descriptors, the one with the higher score is never served by
    a model of lower quality score. *)
Theorem quality_first_monotone (c1 c2 : QueryComplexity) :
  (complexity_score c1 <= complexity_score c2)%Q ->
  exists m1 m2,
    Selector.select_model Selector._initialize_models c1 "quality_first" [] = Ok m1
    /\ Selector.select_model Selector._initialize_models c2 "quality_first" [] = Ok m2
    /\ (Selector.quality_score m1 <= Selector.quality_score m2)%Q.
Proof.
  intros Hle.
  destruct (quality_first_cases c1) as (m1 & H1 & C1).
  destruct (quality_first_cases c2) as (m2 & H2 & C2).
  exists m1, m2. split; [exact H1|]. split; [exact H2|].
  cbv zeta in C1, C2.
  destruct C1 as [[A1 ->]|[[A1 ->]|[A1 ->]]];
    destruct C2 as [[A2 ->]|[[A2 ->]|[A2 ->]]];
    try discriminate; exfalso; lra.
Qed.

Lemma quality_first_monotone_witness :
  exists m1 m2,
    Selector.select_model Selector._initialize_models simple_complexity
      "quality_first" [] = Ok m1
    /\ Selector.select_model Selector._initialize_models complex_complexity
         "quality_first" [] = Ok m2
    /\ (Selector.quality_score m1 <= Selector.quality_score m2)%Q.
Proof.
  apply (quality_first_monotone simple_complexity complex_complexity).
  vm_compute. discriminate.
Defined.

(** X9.  When no rule of the list both holds for the complexity and names a
    catalog model (an empty list, false predicates, unknown models), the
    rules change nothing: selection is the one of the strategy. *)
Theorem select_model_falls_through
  (ms : gmap string Selector.Model) (c : QueryComplexity) (strategy : string)
  (rules : list RoutingRule) :
  (forall r, r ∈ rules -> ~ applicable ms c r) ->
  Selector.select_model ms c strategy rules
  = Selector.select_by_strategy ms c strategy.
Proof.
  intros Hnone. unfold Selector.select_model. rewrite apply_rules_first.
  assert (first_applicable ms c (Selector.sorted rules) = None) as ->.
  { apply first_applicable_None. intros r Hr. apply Hnone.
    rewrite sorted_perm in Hr. exact Hr. }
  reflexivity.
Qed.

Lemma select_model_falls_through_witness :
  Selector.select_model Selector._initialize_models simple_complexity
    "cost_optimized" [to_retired; code_to_gpt4]
  = Selector.select_by_strategy Selector._initialize_models simple_complexity
      "cost_optimized".
Proof.
  apply select_model_falls_through. intros r Hr [Hc [m Hm]].
  apply elem_of_cons in Hr as [->|Hr].
  - vm_compute in Hm. discriminate Hm.
  - apply list_elem_of_singleton in Hr. subst r. vm_compute in Hc.
    discriminate Hc.
Defined.

Lemma with_priority_insert (p : Z) (r : RoutingRule) (l : list RoutingRule) :
  with_priority p (Selector.insert_rule r l)
  = if (priority r =? p)%Z then r :: with_priority p l else with_priority p l.
Proof.
  unfold with_priority. induction l as [|x l IH]; simpl.
  - reflexivity.
  - destruct (priority r <? priority x)%Z eqn:E; simpl.
    + rewrite IH. destruct (priority x =? p)%Z eqn:Ex; [|reflexivity].
      destruct (priority r =? p)%Z eqn:Er; [|reflexivity].
      apply Z.ltb_lt in E. apply Z.eqb_eq in Ex, Er. lia.
    + reflexivity.
Qed.

(** X10.  The sort applied to the rules is a stable descending sort: the
    result is a rearrangement of the list, priorities never increase along
    it, and the rules of any one priority keep the order in which they were
    added. *)
Theorem sorted_is_stable_descending (rules : list RoutingRule) :
  Selector.sorted rules ≡ₚ rules
  /\ descending (Selector.sorted rules)
  /\ forall p, with_priority p (Selector.sorted rules) = with_priority p rules.
Proof.
  split; [apply sorted_perm|]. split; [apply sorted_descending|].
  intros p. induction rules as [|r rules IH]; [reflexivity|].
  change (Selector.sorted (r :: rules))
    with (Selector.insert_rule r (Selector.sorted rules)).
  rewrite with_priority_insert, IH. reflexivity.
Qed.

(** ** The tracker *)

Lemma Qsum_app (xs ys : list Q) : (Qsum (xs ++ ys) == Qsum xs + Qsum ys)%Q.
Proof.
  induction xs as [|x xs IH]; simpl; [lra|]. rewrite IH. lra.
Qed.

Lemma record_all_snoc (t : Tracker.CostTracker)
  (rs : list Tracker.request_data) (r : Tracker.request_data) :
  foldl record t (rs ++ [r]) = record (foldl record t rs) r.
Proof. rewrite foldl_app. reflexivity. Qed.

Lemma filter_snoc {A : Type} (f : A -> bool) (l : list A) (x : A) :
  List.filter f (l ++ [x]) = List.filter f l ++ (if f x then [x] else []).
Proof.
  induction l as [|y l IH]; simpl; [destruct (f x); reflexivity|].
  rewrite IH. destruct (f y); reflexivity.
Qed.

(** [total_savings] is the sum of the savings of the log. *)
Lemma tracker_total_savings (rs : list Tracker.request_data) :
  (Tracker.total_savings (foldl record Tracker.__init__ rs)
   == Qsum (map Tracker.savings rs))%Q.
Proof.
  induction rs as [|r rs IH] using rev_ind; [reflexivity|].
  rewrite record_all_snoc, map_app, Qsum_app. simpl. rewrite IH. lra.
Qed.

(** [model_usage] counts the requests of the log per model, and has a key
    exactly for the models that occur. *)
Lemma tracker_model_usage (rs : list Tracker.request_data) (m : string) :
  Tracker.model_usage (foldl record Tracker.__init__ rs) !! m
  = match of_model m rs with
    | [] => None
    | l => Some (Z.of_nat (length l))
    end.
Proof.
  induction rs as [|r rs IH] using rev_ind; [apply lookup_empty|].
  rewrite record_all_snoc. unfold of_model in *. rewrite filter_snoc.
  unfold record at 1. unfold Tracker.track_request.
  cbn [Tracker.model_usage].
  destruct (String.eqb (Tracker.model r) m) eqn:E.
  - apply String.eqb_eq in E. subst m. rewrite lookup_insert_eq, IH.
    destruct (List.filter _ rs) as [|x l]; simpl; [reflexivity|].
    rewrite length_app. simpl. f_equal. lia.
  - apply String.eqb_neq in E. rewrite lookup_insert_ne by exact E.
    rewrite IH, app_nil_r. reflexivity.
Qed.

(** [daily_costs] holds, per day, the sum of the costs of that day's
    requests. *)
Lemma tracker_daily_costs (rs : list Tracker.request_data) (d : Z) :
  (default 0 (Tracker.daily_costs (foldl record Tracker.__init__ rs) !! d)
   == Qsum (map Tracker.cost (on_day d rs)))%Q
  /\ (Tracker.daily_costs (foldl record Tracker.__init__ rs) !! d = None
      <-> on_day d rs = []).
Proof.
  induction rs as [|r rs [IH1 IH2]] using rev_ind.
  - split; [reflexivity|]. split; [reflexivity|]. intros _. apply lookup_empty.
  - rewrite record_all_snoc. unfold on_day in *. rewrite filter_snoc.
    unfold record at 1 3. unfold Tracker.track_request.
    cbn [Tracker.daily_costs default].
    destruct (Tracker.date (Tracker.timestamp r) =? d)%Z eqn:E.
    + apply Z.eqb_eq in E. subst d. rewrite lookup_insert_eq. split.
      * rewrite map_app, Qsum_app. simpl. rewrite IH1. lra.
      * split; [discriminate|]. intros H. apply app_eq_nil in H as [_ H].
        discriminate H.
    + apply Z.eqb_neq in E. rewrite lookup_insert_ne by exact E.
      rewrite app_nil_r. split; [exact IH1|exact IH2].
Qed.

(** X11.  After any sequence of tracked requests the running aggregates of
    the tracker agree with its log: the log is the sequence itself,
    [total_savings] is the sum of its savings, [model_usage] holds for each
    model that occurs the number of its requests (and no other key), and
    [daily_costs] holds for each day the sum of the costs of that day. *)
Theorem tracker_aggregates_agree_with_log (rs : list Tracker.request_data) :
  let t := foldl record Tracker.__init__ rs in
  Tracker.requests t = rs
  /\ (Tracker.total_savings t == Qsum (map Tracker.savings rs))%Q
  /\ (forall m,
        default 0%Z (Tracker.model_usage t !! m) = Z.of_nat (length (of_model m rs))
        /\ (Tracker.model_usage t !! m = None <-> of_model m rs = []))
  /\ (forall d,
        (default 0 (Tracker.daily_costs t !! d)
         == Qsum (map Tracker.cost (on_day d rs)))%Q
        /\ (Tracker.daily_costs t !! d = None <-> on_day d rs = [])).
Proof.
  intros t. subst t.
  split; [rewrite record_all_requests; reflexivity|].
  split; [apply tracker_total_savings|].
  split; [|apply tracker_daily_costs].
  intros m. rewrite tracker_model_usage.
  destruct (of_model m rs) as [|x l]; simpl.
  - split; [reflexivity|]. split; reflexivity.
  - split; [reflexivity|]. split; discriminate.
Qed.

(** X12.  [get_daily_cost], which re-reads the log, returns what the
    running [daily_costs] table holds for today (0 when the table has no
    entry for today). *)
Theorem get_daily_cost_agrees (rs : list Tracker.request_data) (now : Q) :
  let t := foldl record Tracker.__init__ rs in
  (Tracker.get_daily_cost t now
   == default 0 (Tracker.daily_costs t !! Tracker.date now))%Q.
Proof.
  intros t. subst t. unfold Tracker.get_daily_cost.
  rewrite record_all_requests. simpl.
  destruct (tracker_daily_costs rs (Tracker.date now)) as [H _].
  rewrite H, sum_Qsum. reflexivity.
Qed.

(** ** Analytics *)

Lemma count_models_lookup (rs : list Tracker.request_data) (m : string) :
  Tracker.count_models rs !! m
  = match of_model m rs with
    | [] => None
    | l => Some (Z.of_nat (length l))
    end.
Proof.
  unfold Tracker.count_models.
  induction rs as [|r rs IH] using rev_ind; [apply lookup_empty|].
  rewrite foldl_app. unfold of_model in *. rewrite filter_snoc. simpl.
  destruct (String.eqb (Tracker.model r) m) eqn:E.
  - apply String.eqb_eq in E. subst m. rewrite lookup_insert_eq, IH.
    destruct (List.filter _ rs) as [|x l]; simpl; [reflexivity|].
    rewrite length_app. simpl. f_equal. lia.
  - apply String.eqb_neq in E. rewrite lookup_insert_ne by exact E.
    rewrite IH, app_nil_r. reflexivity.
Qed.

(** The analytics of a tracker fed with [rs], on its window. *)
Lemma get_analytics_unfold (rs : list Tracker.request_data) (now : Q) (days : Z) :
  let t := foldl record Tracker.__init__ rs in
  let window := List.filter (in_window now days) rs in
  Tracker.get_analytics t now days
  = match window with
    | [] => Tracker.mkAnalytics 0 0 0 None 0 ∅ ∅
    | _ =>
        let total_cost := Py.sum (map Tracker.cost window) in
        let total_savings := Py.sum (map Tracker.savings window) in
        Tracker.mkAnalytics
          (Z.of_nat (length window))
          (Py.round total_cost 4)
          (Py.round total_savings 4)
          (Some (if Qlt_bool 0 (total_cost + total_savings)
                 then Py.round (total_savings / (total_cost + total_savings) * 100) 2
                 else 0%Q))
          (Py.round (Tracker.mean (map Tracker.latency window)) 3)
          (Tracker.count_models window)
          ((fun c => Py.round c 4) <$>
             filter (fun dc => (Tracker.date (now - Tracker.timedelta days) < dc.1)%Z)
                    (Tracker.daily_costs t))
    end.
Proof.
  intros t window. subst t window.
  unfold Tracker.get_analytics, Tracker.recent.
  rewrite record_all_requests. reflexivity.
Qed.

(** X13.  The model distribution of the analytics has a key exactly for the
    models of the requests in the window, each with the number of its
    requests there. *)
Theorem analytics_model_distribution
  (rs : list Tracker.request_data) (now : Q) (days : Z) (m : string) :
  let a := Tracker.get_analytics (foldl record Tracker.__init__ rs) now days in
  let window := List.filter (in_window now days) rs in
  default 0%Z (Tracker.a_model_distribution a !! m)
  = Z.of_nat (length (of_model m window))
  /\ (Tracker.a_model_distribution a !! m = None <-> of_model m window = []).
Proof.
  intros a window. subst a. rewrite get_analytics_unfold. fold window.
  destruct window as [|r0 w] eqn:Ew.
  - simpl. rewrite lookup_empty. split; [reflexivity|]. split; reflexivity.
  - cbv zeta. cbn [Tracker.a_model_distribution]. rewrite count_models_lookup.
    destruct (of_model m (r0 :: w)) as [|x l]; simpl.
    + split; [reflexivity|]. split; reflexivity.
    + split; [reflexivity|]. split; discriminate.
Qed.

(** X14.  When no tracked request lies in the window, the analytics are the
    all-zero result without a cost_reduction_percentage entry; that entry is
    present exactly when the window holds a request. *)
Theorem analytics_empty_window
  (rs : list Tracker.request_data) (now : Q) (days : Z) :
  let a := Tracker.get_analytics (foldl record Tracker.__init__ rs) now days in
  let window := List.filter (in_window now days) rs in
  (window = [] -> a = Tracker.mkAnalytics 0 0 0 None 0 ∅ ∅)
  /\ (Tracker.a_cost_reduction_percentage a = None <-> window = []).
Proof.
  intros a window. subst a. rewrite get_analytics_unfold. fold window.
  destruct window as [|r0 w].
  - split; [reflexivity|]. split; reflexivity.
  - split; [discriminate|]. split; discriminate.
Qed.

Lemma analytics_empty_window_witness :
  Tracker.get_analytics (foldl record Tracker.__init__ [small_request]) 100000 1
  = Tracker.mkAnalytics 0 0 0 None 0 ∅ ∅.
Proof.
  apply (analytics_empty_window [small_request] 100000 1).
  vm_compute. reflexivity.
Defined.

Lemma Qsum_nonneg (xs : list Q) :
  Forall (fun x => 0 <= x)%Q xs -> (0 <= Qsum xs)%Q.
Proof.
  induction 1 as [|x xs Hx _ IH]; simpl; [discriminate|]. lra.
Qed.

(** Rounding a number that lies between two integers stays between them. *)
Lemma round_half_even_between (a b : Z) (x : Q) :
  (inject_Z a <= x <= inject_Z b)%Q ->
  (a <= Py.round_half_even x <= b)%Z.
Proof.
  intros [Ha Hb]. pose proof (round_half_even_close x) as [Hlo Hhi].
  set (r := Py.round_half_even x) in *.
  split.
  - assert (inject_Z a < inject_Z (r + 1))%Q as H.
    { rewrite inject_Z_plus. change (inject_Z 1) with 1%Q. lra. }
    rewrite <- Zlt_Qlt in H. lia.
  - assert (inject_Z r < inject_Z (b + 1))%Q as H.
    { rewrite inject_Z_plus. change (inject_Z 1) with 1%Q. lra. }
    rewrite <- Zlt_Qlt in H. lia.
Qed.

Lemma round_2_percentage (x : Q) :
  (0 <= x <= 100)%Q -> (0 <= Py.round x 2 <= 100)%Q.
Proof.
  intros [H0 H1]. unfold Py.round.
  change (inject_Z (10 ^ Z.of_nat 2)) with 100%Q.
  destruct (round_half_even_between 0 10000 (x * 100)) as [Hlo Hhi].
  { change (inject_Z 0) with 0%Q. change (inject_Z 10000) with 10000%Q.
    split; lra. }
  rewrite Zle_Qle in Hlo, Hhi.
  change (inject_Z 0) with 0%Q in Hlo. change (inject_Z 10000) with 10000%Q in Hhi.
  set (y := inject_Z (Py.round_half_even (x * 100))) in *.
  unfold Qdiv. change (/ 100)%Q with (1 # 100)%Q. split; lra.
Qed.

(** The percentage computed from a list of requests without negative costs
    or savings. *)
Lemma percentage_value_bounds (window : list Tracker.request_data) :
  (forall r, r ∈ window -> 0 <= Tracker.cost r /\ 0 <= Tracker.savings r)%Q ->
  let c := Py.sum (map Tracker.cost window) in
  let s := Py.sum (map Tracker.savings window) in
  (0 <= (if Qlt_bool 0 (c + s) then Py.round (s / (c + s) * 100) 2 else 0)
   <= 100)%Q.
Proof.
  intros Hw c s.
  assert (0 <= c)%Q as Hc.
  { subst c. rewrite sum_Qsum. apply Qsum_nonneg. apply Forall_forall.
    intros x Hx. apply list_elem_of_In, in_map_iff in Hx as (r & <- & Hr).
    apply Hw, list_elem_of_In, Hr. }
  assert (0 <= s)%Q as Hs.
  { subst s. rewrite sum_Qsum. apply Qsum_nonneg. apply Forall_forall.
    intros x Hx. apply list_elem_of_In, in_map_iff in Hx as (r & <- & Hr).
    apply Hw, list_elem_of_In, Hr. }
  destruct (Qlt_bool 0 (c + s)) eqn:E; [|split; discriminate].
  apply Qlt_bool_true in E. apply round_2_percentage.
  assert (0 <= s / (c + s) <= 1)%Q as [H0 H1].
  { split.
    - apply Qle_shift_div_l; [exact E|]. lra.
    - apply Qle_shift_div_r; [exact E|]. lra. }
  split; lra.
Qed.

(** X15.  When no tracked request has a negative cost or negative savings,
    the cost_reduction_percentage of the analytics, where present, lies
    between 0 and 100. *)
Theorem analytics_percentage_bounds
  (rs : list Tracker.request_data) (now : Q) (days : Z) (p : Q) :
  (forall r, r ∈ rs -> 0 <= Tracker.cost r /\ 0 <= Tracker.savings r)%Q ->
  Tracker.a_cost_reduction_percentage
    (Tracker.get_analytics (foldl record Tracker.__init__ rs) now days) = Some p ->
  (0 <= p <= 100)%Q.
Proof.
  intros Hpos. rewrite get_analytics_unfold.
  set (window := List.filter (in_window now days) rs).
  assert (forall r, r ∈ window -> 0 <= Tracker.cost r /\ 0 <= Tracker.savings r)%Q
    as Hw.
  { intros r Hr. apply Hpos. apply list_elem_of_In in Hr.
    apply filter_In in Hr as [Hr _]. apply list_elem_of_In. exact Hr. }
  pose proof (percentage_value_bounds window Hw) as Hp.
  destruct window as [|r0 w]; [discriminate|].
  cbv zeta in *. cbn [Tracker.a_cost_reduction_percentage].
  intros [= <-]. exact Hp.
Qed.

Lemma analytics_percentage_bounds_witness :
  exists p,
    Tracker.a_cost_reduction_percentage
      (Tracker.get_analytics (foldl record Tracker.__init__ [small_request])
         2000 1) = Some p
    /\ (0 <= p <= 100)%Q.
Proof.
  eexists. split; [vm_compute; reflexivity|].
  apply (analytics_percentage_bounds [small_request] 2000 1).
  - intros r Hr. apply list_elem_of_singleton in Hr. subst r.
    split; vm_compute; discriminate.
  - vm_compute. reflexivity.
Defined.

(** A day after the day of the cutoff lies wholly after the cutoff. *)
Lemma later_day_in_window (cutoff t : Q) :
  (Tracker.date cutoff < Tracker.date t)%Z -> Qlt_bool cutoff t = true.
Proof.
  intros H. apply Qlt_bool_true. apply Qnot_le_lt. intros Hle.
  unfold Tracker.date in H.
  assert (t / 86400 <= cutoff / 86400)%Q as Hdiv.
  { unfold Qdiv. apply Qmult_le_compat_r; [exact Hle|discriminate]. }
  apply Qfloor_resp_le in Hdiv. lia.
Qed.

(** X16.  An entry of the daily cost breakdown of the analytics is for a
    day after the day of the cutoff; its value is the sum of the costs of
    all requests tracked on that day, rounded to four decimals, and all these
    requests lie in the window.  Requests in the window tracked on the day of
    the cutoff itself have no entry. *)
Theorem analytics_daily_costs
  (rs : list Tracker.request_data) (now : Q) (days : Z) (d : Z) (v : Q) :
  Tracker.a_daily_costs
    (Tracker.get_analytics (foldl record Tracker.__init__ rs) now days) !! d
  = Some v ->
  (Tracker.date (now - Tracker.timedelta days) < d)%Z
  /\ on_day d rs <> []
  /\ (v == Py.round (Qsum (map Tracker.cost (on_day d rs))) 4)%Q
  /\ (forall r, r ∈ on_day d rs -> in_window now days r = true).
Proof.
  rewrite get_analytics_unfold.
  destruct (List.filter (in_window now days) rs) as [|r0 w];
    [simpl; rewrite lookup_empty; discriminate|].
  cbv zeta. cbn [Tracker.a_daily_costs]. rewrite lookup_fmap.
  destruct (filter _ _ !! d) as [x|] eqn:E; [|discriminate].
  simpl. intros [= <-].
  apply map_lookup_filter_Some in E as [Hx Hd]. simpl in Hd.
  destruct (tracker_daily_costs rs d) as [Hsum Hnone].
  rewrite Hx in Hsum. simpl in Hsum.
  split; [exact Hd|]. split.
  { intros Hempty. apply Hnone in Hempty. congruence. }
  split; [rewrite (round_comp _ _ 4 Hsum); reflexivity|].
  intros r Hr. apply list_elem_of_In, filter_In in Hr as [_ Hr].
  apply Z.eqb_eq in Hr. unfold in_window. apply later_day_in_window.
  rewrite Hr. exact Hd.
Qed.

Lemma analytics_daily_costs_witness :
  exists v,
    Tracker.a_daily_costs
      (Tracker.get_analytics (foldl record Tracker.__init__ [small_request])
         (-100) 1) !! 0%Z = Some v
    /\ (v == Py.round (Qsum (map Tracker.cost (on_day 0 [small_request]))) 4)%Q.
Proof.
  eexists. split; [vm_compute; reflexivity|].
  apply (analytics_daily_costs [small_request] (-100) 1 0).
  vm_compute. reflexivity.
Defined.

(** ** The router *)

(** What a completed [create] call leaves untouched. *)
Lemma create_frame (encode : string -> list Z) (hash : string -> Z)
  (self : Router.SmartRouter) (w : Router.World)
  (messages : list (gmap string string)) (hint : string)
  (r : Router.RouterResponse) (self' : Router.SmartRouter) :
  Router.create encode hash self w messages hint = Ok (r, self') ->
  Router.api_keys self' = Router.api_keys self
  /\ Router.enable_fallback self' = Router.enable_fallback self
  /\ Router.custom_rules self' = Router.custom_rules self
  /\ Router.strategy self' = Router.strategy self
  /\ Router.cache_ttl self' = Router.cache_ttl self
  /\ Router.models self' = Router.models self.
Proof.
  unfold Router.create.
  destruct (Router.cache_get _ _ _ _); [intros [= _ <-]; auto 10|].
  destruct (Router.choose_model _ _ _); simpl; [|discriminate].
  destruct (Router._call_model_api _ _ _ _); simpl; [|discriminate].
  destruct (Selector.getitem _ _); simpl; [|discriminate].
  intros [= _ <-]. simpl. auto 10.
Qed.

Section ReachableRouter.

Variable encode : string -> list Z.
Variable hash : string -> Z.

(** A reachable router has an entry for each of the four providers in its
    key table. *)
Lemma reachable_api_keys (self : Router.SmartRouter) (api : Selector.ModelProvider) :
  Router.reachable encode hash self ->
  is_Some (Router.api_keys self !! Selector.provider_value api).
Proof.
  induction 1 as [| |self w messages hint r self' _ IH Hc].
  - destruct api; simpl; eexists; vm_compute; reflexivity.
  - exact IHreachable.
  - apply create_frame in Hc as (-> & _). exact IH.
Qed.

(** The responses returned by a reachable router all have a property that
    the computed ones have. *)
Lemma reachable_responses (P : Router.RouterResponse -> Prop) :
  (forall self w messages hint r self',
     Router.models self = Selector._initialize_models ->
     Router.cache_get hash self (Router.t_lookup w)
       (Router._extract_query messages) = None ->
     Router.create encode hash self w messages hint = Ok (r, self') ->
     P r) ->
  forall self,
    Router.reachable encode hash self ->
    (forall k e, Router.cache self !! k = Some e -> P (Router.response e))
    /\ (forall w messages hint r self',
          Router.create encode hash self w messages hint = Ok (r, self') -> P r).
Proof.
  intros Hcomputed self Hreach.
  assert (forall k e, Router.cache self !! k = Some e -> P (Router.response e))
    as Hcache.
  { induction Hreach as [| |self w messages hint r self' Hreach IH Hc];
      intros k e Hk.
    - simpl in Hk. rewrite lookup_empty in Hk. discriminate Hk.
    - eapply IHHreach. exact Hk.
    - pose proof Hc as Hc'.
      apply create_inv in Hc' as [[_ ->]|(Hmiss & sel & gpt4 & text & H)];
        [eapply IH; exact Hk|].
      destruct H as (_ & _ & _ & _ & _ & _ & Hcache & _).
      rewrite Hcache in Hk. unfold Router.cache_put in Hk.
      apply lookup_insert_Some in Hk as [[_ <-]|[_ Hk]]; [|eapply IH; exact Hk].
      simpl. eapply Hcomputed; eauto using reachable_models. }
  split; [exact Hcache|].
  intros w messages hint r self' Hc.
  destruct (Router.cache_get hash self (Router.t_lookup w)
              (Router._extract_query messages)) as [r0|] eqn:Eg.
  - unfold Router.create in Hc. rewrite Eg in Hc. injection Hc as <- <-.
    unfold Router.cache_get in Eg.
    destruct (Router.cache self !! _) as [e|] eqn:Ee; [|discriminate Eg].
    destruct (Qlt_bool _ _); [|discriminate Eg]. injection Eg as <-.
    eapply Hcache; eauto.
  - eapply Hcomputed; eauto using reachable_models.
Qed.

End ReachableRouter.

(** X17.  On a router built from a fresh one: a model whose provider has no
    usable key fails with that provider's "API key not provided" error
    without any network call; and after a failure [e] of the call to the
    selected model, the result is [e] itself when fallback is disabled, the
    answer of the OpenAI client for gpt-3.5-turbo when fallback is enabled
    and an OpenAI key is held, and otherwise the error "OpenAI API key not
    provided" in place of [e]. *)
Theorem call_model_api_after_failure
  (encode : string -> list Z) (hash : string -> Z)
  (self : Router.SmartRouter) (w : Router.World) (m : Selector.Model)
  (messages : list (gmap string string)) :
  Router.reachable encode hash self ->
  (has_key self (Selector.provider m) = false ->
   Router._call_api self (Selector.provider m) (Router.remote w) m messages
   = Raise (ValueError (Router.missing_key_message (Selector.provider m))))
  /\ (forall e,
        Router._call_api self (Selector.provider m) (Router.remote w) m messages
        = Raise e ->
        Router._call_model_api self w m messages
        = if Router.enable_fallback self then
            if has_key self Selector.OPENAI
            then Router.remote_retry w Selector.OPENAI Selector.gpt_35_turbo messages
            else Raise (ValueError "OpenAI API key not provided")
          else Raise e).
Proof.
  intros Hreach. split.
  - unfold has_key, Router._call_api.
    destruct (reachable_api_keys encode hash self (Selector.provider m) Hreach)
      as [k ->].
    intros ->. reflexivity.
  - intros e He. unfold Router._call_model_api. rewrite He.
    destruct (Router.enable_fallback self); [|reflexivity].
    rewrite (reachable_models encode hash self Hreach).
    change (Selector.getitem Selector._initialize_models "gpt-3.5-turbo")
      with (Ok Selector.gpt_35_turbo).
    cbn [bind]. unfold has_key, Router._call_api.
    destruct (reachable_api_keys encode hash self Selector.OPENAI Hreach)
      as [k ->].
    destruct (Router.truthy k); reflexivity.
Qed.

Lemma call_model_api_after_failure_witness :
  let self := Router.__init__ None (Some "sk-anthropic") None None
                              "balanced" None 3600 true in
  Router._call_model_api self outage_world Selector.claude_3_haiku demo_messages
  = Raise (ValueError "OpenAI API key not provided").
Proof.
  refine (proj2 (call_model_api_after_failure char_encode length_hash
                   (Router.__init__ None (Some "sk-anthropic") None None
                                    "balanced" None 3600 true)
                   outage_world Selector.claude_3_haiku demo_messages
                   (Router.reachable_init char_encode length_hash _ _ _ _ _ _ _ _))
                (ProviderError "503 Service Unavailable") _).
  vm_compute. reflexivity.
Defined.

Lemma cache_key_eq (hash : string -> Z) (q q' : string) :
  Router._generate_cache_key hash q = Router._generate_cache_key hash q'
  <-> hash q = hash q'.
Proof.
  unfold Router._generate_cache_key. split; [|congruence].
  apply pretty_Z_inj.
Qed.

(** X18.  The cache is keyed by the hash of the last user message alone.
    After a computing call, any call within the TTL whose extracted query
    has the same hash (the same last user message in another conversation,
    another model hint, or a colliding text) returns the stored response
    and changes nothing; a query with another hash is looked up as before
    the call. *)
Theorem cache_shared_by_hash
  (encode : string -> list Z) (hash : string -> Z)
  (self : Router.SmartRouter) (w w' : Router.World)
  (messages messages' : list (gmap string string)) (hint hint' : string)
  (r : Router.RouterResponse) (self' : Router.SmartRouter) :
  Router.cache_get hash self (Router.t_lookup w) (Router._extract_query messages)
  = None ->
  Router.create encode hash self w messages hint = Ok (r, self') ->
  (hash (Router._extract_query messages') = hash (Router._extract_query messages) ->
   (Router.t_lookup w' - Router.t_store w < inject_Z (Router.cache_ttl self))%Q ->
   Router.create encode hash self' w' messages' hint' = Ok (r, self'))
  /\ (hash (Router._extract_query messages') <> hash (Router._extract_query messages) ->
      Router.cache_get hash self' (Router.t_lookup w')
        (Router._extract_query messages')
      = Router.cache_get hash self (Router.t_lookup w')
          (Router._extract_query messages')).
Proof.
  intros Hmiss Hc.
  apply create_inv in Hc as [[Hhit _]|(_ & sel & gpt4 & text & H)];
    [congruence|].
  destruct H as (_ & _ & _ & _ & _ & Httl & Hcache & _).
  split.
  - intros Hhash Hfresh. apply create_hit.
    unfold Router.cache_get. rewrite Hcache. unfold Router.cache_put.
    apply (cache_key_eq hash) in Hhash. rewrite Hhash, lookup_insert_eq. simpl.
    rewrite Httl. apply Qlt_bool_true in Hfresh. rewrite Hfresh. reflexivity.
  - intros Hhash. unfold Router.cache_get. rewrite Hcache, Httl.
    unfold Router.cache_put. rewrite lookup_insert_ne; [reflexivity|].
    intros Hk. apply Hhash. symmetry. apply (cache_key_eq hash). exact Hk.
Qed.

(** The question about Norway is answered from the cache with the answer
    about France: both texts have the same hash under [length_hash]. *)
Lemma cache_shared_by_hash_witness :
  exists r self',
    Router.create char_encode length_hash demo_router demo_world demo_messages
                  "auto" = Ok (r, self')
    /\ Router.create char_encode length_hash self'
         (Router.mkWorld (Router.remote demo_world) (Router.remote demo_world)
                         3000 3001 3002 3003 3004)
         norway_messages "gpt-4" = Ok (r, self')
    /\ Router.content r = "The capital of France is Paris.".
Proof.
  destruct (Router.create char_encode length_hash demo_router demo_world
              demo_messages "auto") as [[r self']|e] eqn:E.
  - exists r, self'. split; [reflexivity|]. split.
    + refine (proj1 (cache_shared_by_hash char_encode length_hash demo_router
                demo_world _ demo_messages norway_messages "auto" "gpt-4"
                r self' _ E) _ _).
      * vm_compute. reflexivity.
      * vm_compute. reflexivity.
      * vm_compute. reflexivity.
    + vm_compute in E. injection E as <- _. reflexivity.
  - vm_compute in E. discriminate E.
Defined.

(** X19.  A rule added with [add_rule] is placed after the rules already
    held and leaves the cache and the tracker alone.  If it holds for the
    analysed query, names a catalog model and has a strictly higher priority
    than every applicable rule already held, the next computing [create]
    call in automatic mode answers with that model. *)
Theorem add_rule_takes_effect
  (encode : string -> list Z) (hash : string -> Z)
  (self : Router.SmartRouter) (rule : RoutingRule) (m : Selector.Model)
  (w : Router.World) (messages : list (gmap string string))
  (r : Router.RouterResponse) (self' : Router.SmartRouter) :
  let c := Analyzer.analyze encode (Router._extract_query messages) in
  condition rule c = true ->
  Router.models self !! model rule = Some m ->
  (forall x, x ∈ Router.custom_rules self -> applicable (Router.models self) c x ->
             (priority x < priority rule)%Z) ->
  Router.cache_get hash self (Router.t_lookup w) (Router._extract_query messages)
  = None ->
  Router.create encode hash (Router.add_rule self rule) w messages "auto"
  = Ok (r, self') ->
  Router.custom_rules (Router.add_rule self rule) = Router.custom_rules self ++ [rule]
  /\ Router.cache (Router.add_rule self rule) = Router.cache self
  /\ Router.tracker (Router.add_rule self rule) = Router.tracker self
  /\ Router.model r = Selector.name m
  /\ Router.provider r = Selector.provider_value (Selector.provider m).
Proof.
  intros c Hcond Hm Hlow Hmiss Hc.
  split; [reflexivity|]. split; [reflexivity|]. split; [reflexivity|].
  apply create_inv in Hc as [[Hhit _]|(_ & sel & gpt4 & text & H)].
  { unfold Router.cache_get in Hhit, Hmiss. simpl in Hhit. congruence. }
  destruct H as (Hsel & _ & _ & -> & _).
  fold c in Hsel. unfold Router.choose_model in Hsel. simpl in Hsel.
  destruct (select_model_first_top (Router.models self) c (Router.strategy self)
              (Router.custom_rules self) [] rule m Hcond Hm Hlow) as [Hfirst _].
  { intros x Hx. inversion Hx. }
  rewrite Hfirst in Hsel. injection Hsel as <-. split; reflexivity.
Qed.

Lemma add_rule_takes_effect_witness :
  exists r self',
    Router.create char_encode length_hash (Router.add_rule demo_router to_gpt4)
                  demo_world demo_messages "auto" = Ok (r, self')
    /\ Router.model r = "gpt-4".
Proof.
  destruct (Router.create char_encode length_hash
              (Router.add_rule demo_router to_gpt4) demo_world demo_messages
              "auto") as [[r self']|e] eqn:E.
  - exists r, self'. split; [reflexivity|].
    refine (proj1 (proj2 (proj2 (proj2
              (add_rule_takes_effect char_encode length_hash demo_router
                 to_gpt4 Selector.gpt_4 demo_world demo_messages r self'
                 eq_refl _ _ _ E))))).
    + vm_compute. reflexivity.
    + intros x Hx. inversion Hx.
    + vm_compute. reflexivity.
  - vm_compute in E. discriminate E.
Defined.

(** ** Accounting *)

Lemma catalog_prices (k : string) (m : Selector.Model) :
  Selector._initialize_models !! k = Some m ->
  (0 <= Selector.cost_per_1k_input m /\ 0 <= Selector.cost_per_1k_output m)%Q
  /\ (Selector.name m = "claude-3-opus"
      \/ (Selector.cost_per_1k_input m <= 0.03
          /\ Selector.cost_per_1k_output m <= 0.06)%Q).
Proof.
  revert k m.
  change (map_Forall
            (fun (_ : string) m =>
               (0 <= Selector.cost_per_1k_input m
                /\ 0 <= Selector.cost_per_1k_output m)%Q
               /\ (Selector.name m = "claude-3-opus"
                   \/ (Selector.cost_per_1k_input m <= 0.03
                       /\ Selector.cost_per_1k_output m <= 0.06)%Q))
            Selector._initialize_models).
  unfold Selector._initialize_models.
  repeat (apply map_Forall_insert_2;
          [split; [split; discriminate|];
           first [left; reflexivity | right; split; discriminate]|]).
  apply map_Forall_empty.
Qed.

Lemma calculate_cost_nonneg (m : Selector.Model) (i o : Z) :
  (0 <= Selector.cost_per_1k_input m)%Q -> (0 <= Selector.cost_per_1k_output m)%Q ->
  (0 <= i)%Z -> (0 <= o)%Z ->
  (0 <= Router._calculate_cost m i o)%Q.
Proof.
  intros Hpi Hpo Hi Ho. unfold Router._calculate_cost.
  rewrite Zle_Qle in Hi, Ho. change (inject_Z 0) with 0%Q in Hi, Ho.
  set (x := inject_Z i) in *. set (y := inject_Z o) in *.
  set (a := Selector.cost_per_1k_input m) in *.
  set (b := Selector.cost_per_1k_output m) in *.
  assert (0 <= x / 1000)%Q by (apply Qle_shift_div_l; [reflexivity|lra]).
  assert (0 <= y / 1000)%Q by (apply Qle_shift_div_l; [reflexivity|lra]).
  set (x' := (x / 1000)%Q) in *. set (y' := (y / 1000)%Q) in *. nra.
Qed.

Lemma calculate_cost_below_baseline (m : Selector.Model) (i o : Z) :
  (Selector.cost_per_1k_input m <= 0.03)%Q ->
  (Selector.cost_per_1k_output m <= 0.06)%Q ->
  (0 <= i)%Z -> (0 <= o)%Z ->
  (Router._calculate_cost m i o <= Router._calculate_cost Selector.gpt_4 i o)%Q.
Proof.
  intros Hpi Hpo Hi Ho. unfold Router._calculate_cost.
  change (Selector.cost_per_1k_input Selector.gpt_4) with 0.03%Q.
  change (Selector.cost_per_1k_output Selector.gpt_4) with 0.06%Q.
  rewrite Zle_Qle in Hi, Ho. change (inject_Z 0) with 0%Q in Hi, Ho.
  set (x := inject_Z i) in *. set (y := inject_Z o) in *.
  set (a := Selector.cost_per_1k_input m) in *.
  set (b := Selector.cost_per_1k_output m) in *.
  assert (0 <= x / 1000)%Q by (apply Qle_shift_div_l; [reflexivity|lra]).
  assert (0 <= y / 1000)%Q by (apply Qle_shift_div_l; [reflexivity|lra]).
  set (x' := (x / 1000)%Q) in *. set (y' := (y / 1000)%Q) in *. nra.
Qed.

Lemma max_of_nonneg (x : Q) : (0 <= x)%Q -> (Py.max 0 x == x)%Q.
Proof.
  intros H. unfold Py.max. destruct (Qlt_bool 0 x) eqn:E; [reflexivity|].
  apply Qlt_bool_false in E. lra.
Qed.

Lemma computed_response_accounted
  (encode : string -> list Z) (hash : string -> Z)
  (self : Router.SmartRouter) (w : Router.World)
  (messages : list (gmap string string)) (hint : string)
  (r : Router.RouterResponse) (self' : Router.SmartRouter) :
  Router.models self = Selector._initialize_models ->
  Router.cache_get hash self (Router.t_lookup w) (Router._extract_query messages)
  = None ->
  Router.create encode hash self w messages hint = Ok (r, self') ->
  accounted r.
Proof.
  intros Hms Hmiss Hc.
  apply create_inv in Hc as [[Hhit _]|(_ & sel & gpt4 & text & H)];
    [congruence|].
  destruct H as (Hsel & _ & H4 & -> & _). rewrite Hms in H4.
  change (Selector._initialize_models !! "gpt-4") with (Some Selector.gpt_4) in H4.
  injection H4 as <-.
  apply choose_model_lookup in Hsel as [k Hk]. rewrite Hms in Hk.
  pose proof (catalog_keyed_by_name k sel Hk) as Hname.
  destruct (catalog_prices k sel Hk) as [[Hpi Hpo] Hcheap].
  set (c := Analyzer.analyze encode (Router._extract_query messages)) in *.
  assert (0 <= token_count c)%Z as Hi by (subst c; simpl; lia).
  assert (0 <= Z.of_nat (String.length text) / 4)%Z as Ho
    by (apply Z.div_pos; lia).
  unfold accounted.
  cbn [Router.model Router.cost Router.savings Router.input_tokens
       Router.output_tokens].
  pose proof (calculate_cost_nonneg sel _ _ Hpi Hpo Hi Ho) as Hcost.
  split; [exact Hi|]. split; [exact Ho|]. split; [exact Hcost|].
  split; [apply max_lower_bound|]. split.
  - intros Hne. destruct Hcheap as [Hopus|[Hci Hco]]; [congruence|].
    pose proof (calculate_cost_below_baseline sel _ _ Hci Hco Hi Ho) as Hle.
    rewrite max_of_nonneg by lra. lra.
  - intros Hgpt4. rewrite Hname in Hgpt4. rewrite Hgpt4 in Hk.
    change (Selector._initialize_models !! "gpt-4") with (Some Selector.gpt_4) in Hk.
    injection Hk as <-.
    unfold Py.max.
    destruct (Qlt_bool 0 _) eqn:E; [|reflexivity].
    apply Qlt_bool_true in E. lra.
Qed.

(** X20.  Every response returned by [create] on a router built from a
    fresh one, computed or cached, has non-negative token counts, cost and
    savings; unless it names claude-3-opus, its cost and savings add up to
    the cost of its token counts on gpt-4; when it names gpt-4 its savings
    is 0. *)
Theorem response_accounting
  (encode : string -> list Z) (hash : string -> Z)
  (self : Router.SmartRouter) (w : Router.World)
  (messages : list (gmap string string)) (hint : string)
  (r : Router.RouterResponse) (self' : Router.SmartRouter) :
  Router.reachable encode hash self ->
  Router.create encode hash self w messages hint = Ok (r, self') ->
  (0 <= Router.input_tokens r)%Z
  /\ (0 <= Router.output_tokens r)%Z
  /\ (0 <= Router.cost r)%Q
  /\ (0 <= Router.savings r)%Q
  /\ (Router.model r <> "claude-3-opus" ->
      (Router.cost r + Router.savings r
       == Router._calculate_cost Selector.gpt_4 (Router.input_tokens r)
            (Router.output_tokens r))%Q)
  /\ (Router.model r = "gpt-4" -> (Router.savings r == 0)%Q).
Proof.
  intros Hreach Hc.
  destruct (reachable_responses encode hash accounted
              (computed_response_accounted encode hash) self Hreach) as [_ H].
  exact (H w messages hint r self' Hc).
Qed.

Lemma response_accounting_witness :
  exists r self',
    Router.create char_encode length_hash demo_router demo_world demo_messages
                  "auto" = Ok (r, self')
    /\ (Router.cost r + Router.savings r
        == Router._calculate_cost Selector.gpt_4 (Router.input_tokens r)
             (Router.output_tokens r))%Q.
Proof.
  destruct (Router.create char_encode length_hash demo_router demo_world
              demo_messages "auto") as [[r self']|e] eqn:E.
  - exists r, self'. split; [reflexivity|].
    refine (proj1 (proj2 (proj2 (proj2 (proj2
              (response_accounting char_encode length_hash demo_router
                 demo_world demo_messages "auto" r self'
                 (Router.reachable_init char_encode length_hash _ _ _ _ _ _ _ _)
                 E))))) _).
    vm_compute in E. injection E as <- _. discriminate.
  - vm_compute in E. discriminate E.
Defined.

(** A computing [create] call tracks the record of its response. *)
Lemma create_tracker (encode : string -> list Z) (hash : string -> Z)
  (self : Router.SmartRouter) (w : Router.World)
  (messages : list (gmap string string)) (hint : string)
  (r : Router.RouterResponse) (self' : Router.SmartRouter) :
  Router.cache_get hash self (Router.t_lookup w) (Router._extract_query messages)
  = None ->
  Router.create encode hash self w messages hint = Ok (r, self') ->
  Router.tracker self' = record (Router.tracker self) (as_request (Router.t_track w) r).
Proof.
  intros Hmiss. unfold Router.create. rewrite Hmiss.
  destruct (Router.choose_model _ _ _); simpl; [|discriminate].
  destruct (Router._call_model_api _ _ _ _); simpl; [|discriminate].
  destruct (Selector.getitem _ _); simpl; [|discriminate].
  intros [= <- <-]. reflexivity.
Qed.

Section ReachableTracker.

Variable encode : string -> list Z.
Variable hash : string -> Z.

(** The tracker of a reachable router is its log replayed; every record of
    the log is the record of an accounted response; every cached response
    has its record in the log; the cache holds no more entries than the log
    has records. *)
Lemma reachable_tracker (self : Router.SmartRouter) :
  Router.reachable encode hash self ->
  let log := Tracker.requests (Router.tracker self) in
  Router.tracker self = foldl record Tracker.__init__ log
  /\ (forall rec, rec ∈ log -> exists t r, rec = as_request t r /\ accounted r)
  /\ (forall k e, Router.cache self !! k = Some e ->
                  exists t, as_request t (Router.response e) ∈ log)
  /\ size (Router.cache self) <= length log.
Proof.
  induction 1 as [| |self w messages hint r self' Hreach IH Hc]; cbv zeta.
  - split; [reflexivity|]. split; [intros rec Hrec; inversion Hrec|].
    split; [intros k e Hk; simpl in Hk; rewrite lookup_empty in Hk;
            discriminate Hk|].
    simpl. rewrite map_size_empty. lia.
  - exact IHreachable.
  - cbv zeta in IH. destruct IH as (Hlog & Hrecs & Hcached & Hsize).
    destruct (Router.cache_get hash self (Router.t_lookup w)
                (Router._extract_query messages)) as [r0|] eqn:Eg.
    { unfold Router.create in Hc. rewrite Eg in Hc. injection Hc as <- <-.
      auto. }
    pose proof (create_tracker encode hash self w messages hint r self' Eg Hc)
      as Htr.
    pose proof (computed_response_accounted encode hash self w messages hint
                  r self' (reachable_models encode hash self Hreach) Eg Hc)
      as Hacc.
    apply create_inv in Hc as [[Hhit _]|(_ & sel & gpt4 & text & H)];
      [congruence|].
    destruct H as (_ & _ & _ & _ & _ & _ & Hcache & _).
    rewrite Htr, record_requests.
    split.
    { rewrite foldl_app. simpl. rewrite <- Hlog. reflexivity. }
    split.
    { intros rec Hrec. apply elem_of_app in Hrec as [Hrec|Hrec]; [auto|].
      apply list_elem_of_singleton in Hrec. eauto. }
    split.
    { intros k e Hk. rewrite Hcache in Hk. unfold Router.cache_put in Hk.
      apply lookup_insert_Some in Hk as [[_ <-]|[_ Hk]].
      - exists (Router.t_track w). simpl. apply elem_of_app. right. left.
      - destruct (Hcached k e Hk) as [t Ht]. exists t.
        apply elem_of_app. left. exact Ht. }
    rewrite Hcache. unfold Router.cache_put. rewrite length_app. simpl.
    pose proof (map_size_insert (Router._generate_cache_key hash
                                   (Router._extract_query messages))
                  (Router.mkCacheEntry r (Router.t_store w))
                  (Router.cache self)) as Hins.
    rewrite Hins.
    destruct (Router.cache self !! _); unfold id; lia.
Qed.

End ReachableTracker.

(** X21.  On a router built from a fresh one, every cached response has its
    usage record in the tracker's log, the cache holds no more entries than
    the log has records (cache hits are not tracked, recomputed queries
    overwrite their entry), and the tracker's running [total_savings] is the
    non-negative sum of the savings of the log. *)
Theorem cache_entries_are_tracked
  (encode : string -> list Z) (hash : string -> Z) (self : Router.SmartRouter) :
  Router.reachable encode hash self ->
  let log := Tracker.requests (Router.tracker self) in
  (forall k e, Router.cache self !! k = Some e ->
               exists t, as_request t (Router.response e) ∈ log)
  /\ size (Router.cache self) <= length log
  /\ (Tracker.total_savings (Router.tracker self)
      == Qsum (map Tracker.savings log))%Q
  /\ (0 <= Tracker.total_savings (Router.tracker self))%Q.
Proof.
  intros Hreach log.
  destruct (reachable_tracker encode hash self Hreach)
    as (Hlog & Hrecs & Hcached & Hsize).
  fold log in Hlog, Hrecs, Hcached, Hsize.
  split; [exact Hcached|]. split; [exact Hsize|].
  assert (Tracker.total_savings (Router.tracker self)
          == Qsum (map Tracker.savings log))%Q as Hsum.
  { rewrite Hlog at 1. apply tracker_total_savings. }
  split; [exact Hsum|]. rewrite Hsum. apply Qsum_nonneg.
  apply Forall_forall. intros x Hx.
  apply list_elem_of_In, in_map_iff in Hx as (rec & <- & Hrec).
  apply list_elem_of_In in Hrec.
  destruct (Hrecs rec Hrec) as (t & r & -> & Hacc).
  simpl. apply Hacc.
Qed.

Lemma cache_entries_are_tracked_witness :
  exists r self',
    Router.create char_encode length_hash demo_router demo_world demo_messages
                  "auto" = Ok (r, self')
    /\ size (Router.cache self')
       <= length (Tracker.requests (Router.tracker self')).
Proof.
  destruct (Router.create char_encode length_hash demo_router demo_world
              demo_messages "auto") as [[r self']|e] eqn:E.
  - exists r, self'. split; [reflexivity|].
    refine (proj1 (proj2 (cache_entries_are_tracked char_encode length_hash
                            self' _))).
    eapply Router.reachable_create; [|exact E].
    apply Router.reachable_init.
  - vm_compute in E. discriminate E.
Defined.

(** X22.  On a router built from a fresh one, the cost_reduction_percentage
    reported by [get_analytics], where present, lies between 0 and 100, for
    every clock reading and every window. *)
Theorem router_analytics_percentage
  (encode : string -> list Z) (hash : string -> Z) (self : Router.SmartRouter)
  (now : Q) (days : Z) (p : Q) :
  Router.reachable encode hash self ->
  Tracker.a_cost_reduction_percentage (Router.get_analytics self now days) = Some p ->
  (0 <= p <= 100)%Q.
Proof.
  intros Hreach. unfold Router.get_analytics.
  destruct (reachable_tracker encode hash self Hreach) as (Hlog & Hrecs & _).
  rewrite Hlog, get_analytics_unfold.
  set (window := List.filter (in_window now days)
                   (Tracker.requests (Router.tracker self))).
  assert (forall r, r ∈ window -> 0 <= Tracker.cost r /\ 0 <= Tracker.savings r)%Q
    as Hw.
  { intros rec Hrec. apply list_elem_of_In, filter_In in Hrec as [Hrec _].
    apply list_elem_of_In in Hrec.
    destruct (Hrecs rec Hrec) as (t & r & -> & Hacc).
    simpl. split; apply Hacc. }
  pose proof (percentage_value_bounds window Hw) as Hp.
  destruct window as [|r0 w]; [discriminate|].
  cbv zeta in *. cbn [Tracker.a_cost_reduction_percentage].
  intros [= <-]. exact Hp.
Qed.

Lemma router_analytics_percentage_witness :
  exists r self' p,
    Router.create char_encode length_hash demo_router demo_world demo_messages
                  "auto" = Ok (r, self')
    /\ Tracker.a_cost_reduction_percentage (Router.get_analytics self' 2000 1)
       = Some p
    /\ (0 <= p <= 100)%Q.
Proof.
  destruct (Router.create char_encode length_hash demo_router demo_world
              demo_messages "auto") as [[r self']|e] eqn:E.
  - destruct (Tracker.a_cost_reduction_percentage
                (Router.get_analytics self' 2000 1)) as [p|] eqn:Ep.
    + exists r, self', p. split; [reflexivity|]. split; [exact Ep|].
      apply (router_analytics_percentage char_encode length_hash self' 2000 1 p);
        [|exact Ep].
      eapply Router.reachable_create; [|exact E].
      apply Router.reachable_init.
    + exfalso. vm_compute in E. injection E as _ <-. vm_compute in Ep.
      discriminate Ep.
  - vm_compute in E. discriminate E.
Defined.

(** ** More on selection and on the window *)



(** X24.  With an explicit model name and no cache hit, [create] on a router
    built from a fresh one fails with "Unknown model: <name>" when the name
    is not a key of the catalog, whatever the provider would answer; when it
    returns a response, the response names exactly the requested model, the
    rules and the strategy notwithstanding. *)
Theorem explicit_model_hint
  (encode : string -> list Z) (hash : string -> Z)
  (self : Router.SmartRouter) (w : Router.World)
  (messages : list (gmap string string)) (hint : string) :
  Router.reachable encode hash self ->
  hint <> "auto" ->
  Router.cache_get hash self (Router.t_lookup w) (Router._extract_query messages)
  = None ->
  (Selector._initialize_models !! hint = None ->
   Router.create encode hash self w messages hint
   = Raise (ValueError ("Unknown model: " +:+ hint)))
  /\ (forall r self',
        Router.create encode hash self w messages hint = Ok (r, self') ->
        Router.model r = hint
        /\ is_Some (Selector._initialize_models !! hint)).
Proof.
  intros Hreach Hauto Hmiss.
  pose proof (reachable_models encode hash self Hreach) as Hms.
  apply String.eqb_neq in Hauto. split.
  - intros Hnone. unfold Router.create. rewrite Hmiss.
    unfold Router.choose_model. rewrite Hauto, Hms, Hnone. reflexivity.
  - intros r self' Hc.
    apply create_inv in Hc as [[Hhit _]|(_ & sel & gpt4 & text & H)];
      [congruence|].
    destruct H as (Hsel & _ & _ & -> & _).
    unfold Router.choose_model in Hsel. rewrite Hauto, Hms in Hsel.
    destruct (Selector._initialize_models !! hint) as [m|] eqn:E;
      [|discriminate Hsel].
    injection Hsel as <-. split; [|eauto].
    simpl. apply catalog_keyed_by_name. exact E.
Qed.

Lemma explicit_model_hint_witness :
  Router.create char_encode length_hash (Router.add_rule demo_router to_gpt4)
                demo_world demo_messages "gpt-5"
  = Raise (ValueError "Unknown model: gpt-5").
Proof.
  refine (proj1 (explicit_model_hint char_encode length_hash
                   (Router.add_rule demo_router to_gpt4) demo_world
                   demo_messages "gpt-5" _ _ _) _).
  - apply Router.reachable_add_rule, Router.reachable_init.
  - discriminate.
  - vm_compute. reflexivity.
  - vm_compute. reflexivity.
Defined.

Lemma filter_length_mono {A : Type} (f g : A -> bool) (l : list A) :
  (forall x, f x = true -> g x = true) ->
  length (List.filter f l) <= length (List.filter g l).
Proof.
  intros Hfg. induction l as [|x l IH]; simpl; [lia|].
  destruct (f x) eqn:Ef.
  - rewrite (Hfg x Ef). simpl. lia.
  - destruct (g x); simpl; lia.
Qed.

(** X25.  The window of the analytics grows with the number of days and
    never exceeds the log: for [days <= days'], the request count over
    [days] is at most the count over [days'], which is at most the number of
    tracked requests. *)
Theorem analytics_window_monotone
  (rs : list Tracker.request_data) (now : Q) (days days' : Z) :
  (days <= days')%Z ->
  let t := foldl record Tracker.__init__ rs in
  (0 <= Tracker.a_total_requests (Tracker.get_analytics t now days)
   <= Tracker.a_total_requests (Tracker.get_analytics t now days'))%Z
  /\ (Tracker.a_total_requests (Tracker.get_analytics t now days')
      <= Z.of_nat (length rs))%Z.
Proof.
  intros Hd t. subst t.
  assert (forall d,
            Tracker.a_total_requests
              (Tracker.get_analytics (foldl record Tracker.__init__ rs) now d)
            = Z.of_nat (length (List.filter (in_window now d) rs))) as Hcount.
  { intros d. rewrite get_analytics_unfold.
    destruct (List.filter (in_window now d) rs); reflexivity. }
  rewrite !Hcount.
  assert (length (List.filter (in_window now days) rs)
          <= length (List.filter (in_window now days') rs)) as Hmono.
  { apply filter_length_mono. intros r. unfold in_window.
    rewrite !Qlt_bool_true. unfold Tracker.timedelta. intros H.
    rewrite Zle_Qle in Hd. nra. }
  assert (length (List.filter (in_window now days') rs) <= length rs) as Hall.
  { clear. induction rs as [|r rs IH]; simpl; [lia|].
    destruct (in_window now days' r); simpl; lia. }
  lia.
Qed.

Lemma analytics_window_monotone_witness :
  (Tracker.a_total_requests
     (Tracker.get_analytics (foldl record Tracker.__init__ [small_request])
        100000 1)
   <= Tracker.a_total_requests
        (Tracker.get_analytics (foldl record Tracker.__init__ [small_request])
           100000 2))%Z.
Proof.
  apply (analytics_window_monotone [small_request] 100000 1 2). lia.
Defined.
